(** * Leader session and subgraph watcher of `rover dev`

    Shallow embedding of [src/src/command/dev/protocol/leader.rs] and
    [src/src/command/dev/watcher.rs].  The composer ([ComposeRunner]), the
    router supervisor ([RouterRunner]) and the follower messenger are
    collaborators whose code is not part of these files: they are taken as
    parameters of the development. *)

From Stdlib Require Import List String Ascii Bool Arith Lia Permutation.
Import ListNotations.
Open Scope string_scope.
Open Scope nat_scope.

(** ** Shared types *)

(** [Result<T, E>] *)
Inductive result (A E : Type) : Type :=
| Ok (a : A)
| Err (e : E).
Arguments Ok {A E} a.
Arguments Err {A E} e.

Definition SubgraphName := string.
Definition SubgraphSdl := string.
(** [SubgraphKey = (SubgraphName, Url)]; a URL is kept as its text. *)
Definition SubgraphKey := (SubgraphName * string)%type.
Definition SubgraphEntry := (SubgraphKey * SubgraphSdl)%type.

Definition key_eqb (k1 k2 : SubgraphKey) : bool :=
  String.eqb (fst k1) (fst k2) && String.eqb (snd k1) (snd k2).

(** [semver::Version] *)
Record Version := mkVersion
  { major : nat; minor : nat; patch : nat;
    pre : string;    (* the pre-release identifiers, "" for none *)
    build : string   (* the build metadata, "" for none *) }.

(** [apollo_federation_types::config::FederationVersion] *)
Inductive FederationVersion :=
| LatestFedOne
| LatestFedTwo
| ExactFedOne (v : Version)
| ExactFedTwo (v : Version).

(** [SubgraphDefinition::new(name, url, sdl)] *)
Record SubgraphDefinition := mkSubgraphDefinition
  { def_name : string; def_url : string; def_sdl : string }.

(** [SupergraphConfig] as built by [LeaderSession::supergraph_config]. *)
Record SupergraphConfig := mkSupergraphConfig
  { sc_subgraphs : list SubgraphDefinition;
    sc_federation_version : FederationVersion }.

(** [CompositionResult = Result<Option<String>, String>] *)
Definition CompositionResult := result (option string) string.

(** [LeaderMessageKind] *)
Inductive LeaderMessageKind :=
| GetVersion (follower_version leader_version : string)
| LeaderSessionInfo (subgraphs : list SubgraphKey)
| CompositionSuccess (action : string)
| ErrorNotification (error : string)
| MessageReceived.

Definition add_subgraph_composition_success (n : SubgraphName) : LeaderMessageKind :=
  CompositionSuccess ("adding the '" ++ n ++ "' subgraph").
Definition update_subgraph_composition_success (n : SubgraphName) : LeaderMessageKind :=
  CompositionSuccess ("updating the '" ++ n ++ "' subgraph").
Definition remove_subgraph_composition_success (n : SubgraphName) : LeaderMessageKind :=
  CompositionSuccess ("removing the '" ++ n ++ "' subgraph").

Definition is_composition_success (m : LeaderMessageKind) : bool :=
  match m with CompositionSuccess _ => true | _ => false end.
Definition is_error_notification (m : LeaderMessageKind) : bool :=
  match m with ErrorNotification _ => true | _ => false end.

(** ** The registry

    [HashMap<SubgraphKey, SubgraphSdl>] is kept as an association list whose
    order is the map's iteration order.  Rust's [HashMap::new()] seeds its
    hasher randomly, so that order is not fixed by the contents: two lists
    that are permutations of each other stand for the same map iterated under
    two different seeds. *)
Definition Registry := list (SubgraphKey * SubgraphSdl).

(** [HashMap::get] *)
Fixpoint lookup (k : SubgraphKey) (m : Registry) : option SubgraphSdl :=
  match m with
  | [] => None
  | (k', v) :: m' => if key_eqb k k' then Some v else lookup k m'
  end.

(** [VacantEntry::insert]: a key absent from the map is added. *)
Definition insert_vacant (k : SubgraphKey) (v : SubgraphSdl) (m : Registry) : Registry :=
  app m [(k, v)].

(** [*get_mut(k) = v] on a present key. *)
Fixpoint replace (k : SubgraphKey) (v : SubgraphSdl) (m : Registry) : Registry :=
  match m with
  | [] => []
  | (k', v') :: m' => if key_eqb k k' then (k', v) :: m' else (k', v') :: replace k v m'
  end.

(** [HashMap::remove] *)
Fixpoint remove_key (k : SubgraphKey) (m : Registry) : Registry :=
  match m with
  | [] => []
  | (k', v') :: m' => if key_eqb k k' then m' else (k', v') :: remove_key k m'
  end.

(** [self.subgraphs.keys().find(|(name, _)| name == subgraph_name).cloned()] *)
Fixpoint find_by_name (n : SubgraphName) (m : Registry) : option SubgraphKey :=
  match m with
  | [] => None
  | (k, _) :: m' => if String.eqb (fst k) n then Some k else find_by_name n m'
  end.

Definition is_empty {A} (l : list A) : bool :=
  match l with [] => true | _ => false end.

(** ** Leader session *)

Section Leader.

(** State and operations of the composer ([ComposeRunner::run]) and the router
    supervisor ([RouterRunner::spawn], [RouterRunner::kill]). *)
Context {ComposeRunner RouterRunner : Type}.
Variable compose_run : ComposeRunner -> SupergraphConfig -> ComposeRunner * CompositionResult.
Variable router_spawn : RouterRunner -> RouterRunner * result unit string.
Variable router_kill : RouterRunner -> RouterRunner * result unit string.

Record LeaderSession := mkLeaderSession
  { subgraphs : Registry;
    compose_runner : ComposeRunner;
    router_runner : RouterRunner;
    federation_version : FederationVersion }.

Definition with_subgraphs (s : LeaderSession) (m : Registry) : LeaderSession :=
  mkLeaderSession m (compose_runner s) (router_runner s) (federation_version s).
Definition with_compose_runner (s : LeaderSession) (c : ComposeRunner) : LeaderSession :=
  mkLeaderSession (subgraphs s) c (router_runner s) (federation_version s).
Definition with_router_runner (s : LeaderSession) (r : RouterRunner) : LeaderSession :=
  mkLeaderSession (subgraphs s) (compose_runner s) r (federation_version s).

(** [LeaderSession::supergraph_config] *)
Definition supergraph_config (s : LeaderSession) : SupergraphConfig :=
  mkSupergraphConfig
    (map (fun '((name, url), sdl) => mkSubgraphDefinition name url sdl) (subgraphs s))
    (federation_version s).

(** [LeaderSession::compose]:
    [run(..).and_then(|m| { if m.is_some() { spawn()? } Ok(m) })
              .map_err(|e| { let _ = kill(); e })] *)
Definition compose (s : LeaderSession) : LeaderSession * CompositionResult :=
  let '(c', run_result) := compose_run (compose_runner s) (supergraph_config s) in
  let s1 := with_compose_runner s c' in
  let '(s2, r2) :=
    match run_result with
    | Ok maybe_new_schema =>
        match maybe_new_schema with
        | Some _ =>
            let '(rr, spawned) := router_spawn (router_runner s1) in
            match spawned with
            | Err err => (with_router_runner s1 rr, Err err)
            | Ok _ => (with_router_runner s1 rr, Ok maybe_new_schema)
            end
        | None => (s1, Ok maybe_new_schema)
        end
    | Err e => (s1, Err e)
    end in
  match r2 with
  | Err e => (with_router_runner s2 (fst (router_kill (router_runner s2))), Err e)
  | Ok v => (s2, Ok v)
  end.

(** [RoverError::new(anyhow!(..)).to_string()] of the duplicate-key branch. *)
Definition already_exists_error (name url : string) : string :=
  "subgraph with name '" ++ name ++ "' and url '" ++ url ++ "' already exists".

(** [LeaderSession::add_subgraph] *)
Definition add_subgraph (s : LeaderSession) (subgraph_entry : SubgraphEntry)
  : LeaderSession * LeaderMessageKind :=
  let is_first_subgraph := is_empty (subgraphs s) in
  let '((name, url), sdl) := subgraph_entry in
  match lookup (name, url) (subgraphs s) with
  | None =>
      let s1 := with_subgraphs s (insert_vacant (name, url) sdl (subgraphs s)) in
      let '(s2, composition_result) := compose s1 in
      match composition_result with
      | Err composition_err => (s2, ErrorNotification composition_err)
      | Ok (Some _) =>
          if negb is_first_subgraph
          then (s2, add_subgraph_composition_success name)
          else (s2, MessageReceived)
      | Ok None => (s2, MessageReceived)
      end
  | Some _ => (s, ErrorNotification (already_exists_error name url))
  end.

(** [LeaderSession::update_subgraph] *)
Definition update_subgraph (s : LeaderSession) (subgraph_entry : SubgraphEntry)
  : LeaderSession * LeaderMessageKind :=
  let '((name, url), sdl) := subgraph_entry in
  match lookup (name, url) (subgraphs s) with
  | Some prev_sdl =>
      if negb (String.eqb prev_sdl sdl) then
        let s1 := with_subgraphs s (replace (name, url) sdl (subgraphs s)) in
        let '(s2, composition_result) := compose s1 in
        match composition_result with
        | Err composition_err => (s2, ErrorNotification composition_err)
        | Ok (Some _) => (s2, update_subgraph_composition_success name)
        | Ok None => (s2, MessageReceived)
        end
      else (s, MessageReceived)
  | None => add_subgraph s subgraph_entry
  end.

(** [LeaderSession::remove_subgraph] *)
Definition remove_subgraph (s : LeaderSession) (subgraph_name : SubgraphName)
  : LeaderSession * LeaderMessageKind :=
  match find_by_name subgraph_name (subgraphs s) with
  | Some (name, url) =>
      let s1 := with_subgraphs s (remove_key (name, url) (subgraphs s)) in
      let '(s2, composition_result) := compose s1 in
      match composition_result with
      | Err composition_err => (s2, ErrorNotification composition_err)
      | Ok (Some _) => (s2, remove_subgraph_composition_success name)
      | Ok None => (s2, MessageReceived)
      end
  | None => (s, MessageReceived)
  end.

End Leader.

(** ** Federation version resolution *)

Definition is_digit (c : ascii) : bool :=
  let n := nat_of_ascii c in (48 <=? n)%nat && (n <=? 57)%nat.

Fixpoint digits_value (s : string) (acc : nat) : option nat :=
  match s with
  | EmptyString => Some acc
  | String c s' =>
      if is_digit c then digits_value s' (acc * 10 + (nat_of_ascii c - 48))%nat else None
  end.

Fixpoint all_chars (p : ascii -> bool) (s : string) : bool :=
  match s with
  | EmptyString => true
  | String c s' => p c && all_chars p s'
  end.

(** Same-length digit strings compared as numbers. *)
Fixpoint digits_leb (a b : string) : bool :=
  match a, b with
  | String x a', String y b' =>
      (nat_of_ascii x <? nat_of_ascii y) ||
      ((nat_of_ascii x =? nat_of_ascii y) && digits_leb a' b')
  | _, _ => true
  end.

(** A digit string without leading zero that fits a [u64]
    (at most [18446744073709551615]). *)
Definition fits_u64 (s : string) : bool :=
  (String.length s <? 20) ||
  ((String.length s =? 20) && digits_leb s "18446744073709551615").

(** A numeric identifier of the version core: non-empty digits, no leading
    zero, within [u64]. *)
Definition parse_numeric (s : string) : option nat :=
  match s with
  | EmptyString => None
  | String "0" (String _ _) => None
  | _ => if fits_u64 s then digits_value s 0 else None
  end.

Fixpoint split_dot (s : string) : list string :=
  match s with
  | EmptyString => [EmptyString]
  | String c s' =>
      if Ascii.eqb c "." then EmptyString :: split_dot s'
      else match split_dot s' with
           | [] => [String c EmptyString]
           | w :: ws => String c w :: ws
           end
  end.

(** The text before the first [sep], and the text after it if there is one. *)
Fixpoint split_at_first (sep : ascii) (s : string) : string * option string :=
  match s with
  | EmptyString => (EmptyString, None)
  | String c s' =>
      if Ascii.eqb c sep then (EmptyString, Some s')
      else let '(a, b) := split_at_first sep s' in (String c a, b)
  end.

(** [0-9A-Za-z-] *)
Definition is_ident_char (c : ascii) : bool :=
  let n := nat_of_ascii c in
  is_digit c || ((65 <=? n) && (n <=? 90)) || ((97 <=? n) && (n <=? 122)) || Ascii.eqb c "-".

(** A pre-release identifier: non-empty, [0-9A-Za-z-], and no leading zero
    when it is numeric. *)
Definition pre_identifier_ok (s : string) : bool :=
  match s with
  | EmptyString => false
  | String "0" (String _ _) => all_chars is_ident_char s && negb (all_chars is_digit s)
  | _ => all_chars is_ident_char s
  end.

(** A build identifier: non-empty, [0-9A-Za-z-] (leading zeros allowed). *)
Definition build_identifier_ok (s : string) : bool :=
  match s with
  | EmptyString => false
  | _ => all_chars is_ident_char s
  end.

(** [semver::Version::parse]: [MAJOR.MINOR.PATCH], then an optional
    ['-'] pre-release, then an optional ['+'] build metadata. *)
Definition semver_parse (s : string) : option Version :=
  let '(core_pre, build) := split_at_first "+" s in
  let '(core, pre) := split_at_first "-" core_pre in
  let pre_ok := match pre with
                | None => true
                | Some p => forallb pre_identifier_ok (split_dot p)
                end in
  let build_ok := match build with
                  | None => true
                  | Some b => forallb build_identifier_ok (split_dot b)
                  end in
  match split_dot core with
  | [a; b; c] =>
      match parse_numeric a, parse_numeric b, parse_numeric c with
      | Some x, Some y, Some z =>
          if pre_ok && build_ok
          then Some (mkVersion x y z (match pre with Some p => p | None => "" end)
                                     (match build with Some b => b | None => "" end))
          else None
      | _, _, _ => None
      end
  | _ => None
  end.

(** The error text for an unsupported version (its wording is only
    reported in the log line, and no property below depends on it). *)
Definition invalid_version (input : string) : string :=
  "Specified version `" ++ input ++
  "` is not supported. You can either specify '1', '2', or a fully qualified version prefixed with an '=', like: =2.0.0".

(** [FederationVersion::from_str] (crate [apollo_federation_types]): an
    ['=']-prefixed semver is an exact version, accepted for federation one
    (major 0, from [0.36.0] on) and federation two (major 2) only; the
    unprefixed aliases select the latest version of a line.  The test
    [federation_version_respects_precedence_order] of [leader.rs] relies on
    it (["2.3.4"], ["0.40.0"] accepted, ["1.0.1"] and ["crackers"] rejected). *)
Definition FederationVersion_from_str (input : string) : result FederationVersion string :=
  match input with
  | String "=" rest =>
      match semver_parse rest with
      | Some v =>
          match major v with
          | 0 => if 36 <=? minor v then Ok (ExactFedOne v) else Err (invalid_version input)
          | 2 => Ok (ExactFedTwo v)
          | _ => Err (invalid_version input)
          end
      | None => Err (invalid_version input)
      end
  | _ =>
      if String.eqb input "1" || String.eqb input "latest-1" then Ok LatestFedOne
      else if String.eqb input "2" || String.eqb input "latest-2" then Ok LatestFedTwo
      else Err (invalid_version input)
  end.

(** [warn!] and [info!] lines. *)
Inductive LogLine :=
| LogWarn (msg : string)
| LogInfo (msg : string).

(** [LeaderSession::get_federation_version]: environment variable, then the
    supergraph config, then [LatestFedTwo]; the lines it logs come first. *)
Definition get_federation_version (sc_config_version : option FederationVersion)
  (env_var : option string) : list LogLine * result FederationVersion string :=
  let '(logs, env_var_version) :=
    match env_var with
    | Some version =>
        match FederationVersion_from_str ("=" ++ version) with
        | Ok v => ([], Some v)
        | Err e =>
            ([LogWarn ("could not parse version from environment variable '" ++ e ++ "'");
              LogInfo "will check supergraph schema next..."], None)
        end
    | None => ([], None)
    end in
  match env_var_version with
  | Some v => (logs, Ok v)
  | None =>
      match sc_config_version with
      | Some v => (logs, Ok v)
      | None =>
          (app logs [LogWarn "federation version not found in supergraph schema";
                     LogInfo "using latest version instead"], Ok LatestFedTwo)
      end
  end.


(** ** Subgraph schema watcher *)

(** [IntrospectRunnerKind]: the dialect is unknown until the first fetch. *)
Inductive IntrospectRunnerKind :=
| RunnerUnknown
| RunnerGraph
| RunnerSubgraph.

(** [SubgraphSchemaWatcherKind] *)
Inductive SubgraphSchemaWatcherKind :=
| Introspect (runner : IntrospectRunnerKind) (polling_interval : nat)
| File (path : string)
| Once (sdl : string).

(** [FollowerMessageKind] (the variants a watcher sends). *)
Inductive FollowerMessageKind :=
| AddSubgraph (subgraph_entry : SubgraphDefinition)
| UpdateSubgraph (subgraph_entry : SubgraphDefinition)
| RemoveSubgraph (subgraph_name : SubgraphName).

(** [SubgraphSchemaWatcher] (the messenger is a parameter below). *)
Record SubgraphSchemaWatcher := mkWatcher
  { schema_watcher_kind : SubgraphSchemaWatcherKind;
    subgraph_key : SubgraphKey;
    subgraph_retries : nat;
    subgraph_retry_countdown : nat }.

Definition set_schema_refresher (w : SubgraphSchemaWatcher) (k : SubgraphSchemaWatcherKind) :=
  mkWatcher k (subgraph_key w) (subgraph_retries w) (subgraph_retry_countdown w).
Definition set_countdown (w : SubgraphSchemaWatcher) (n : nat) :=
  mkWatcher (schema_watcher_kind w) (subgraph_key w) (subgraph_retries w) n.

(** [SubgraphSchemaWatcher::new_from_file_path] *)
Definition new_from_file_path (subgraph_key : SubgraphKey) (path : string)
  (subgraph_retries : nat) : result SubgraphSchemaWatcher string :=
  Ok (mkWatcher (File path) subgraph_key subgraph_retries 0).

(** [SubgraphSchemaWatcher::new_from_sdl] *)
Definition new_from_sdl (subgraph_key : SubgraphKey) (sdl : string)
  (subgraph_retries : nat) : result SubgraphSchemaWatcher string :=
  Ok (mkWatcher (Once sdl) subgraph_key subgraph_retries 0).

(** [SubgraphSchemaWatcher::new_from_introspect_runner] *)
Definition new_from_introspect_runner (subgraph_key : SubgraphKey)
  (introspect_runner : IntrospectRunnerKind) (polling_interval : nat)
  (subgraph_retries : nat) : result SubgraphSchemaWatcher string :=
  Ok (mkWatcher (Introspect introspect_runner polling_interval) subgraph_key subgraph_retries 0).

(** [SubgraphSchemaWatcher::new_from_url]: an unknown-dialect runner. *)
Definition new_from_url (subgraph_key : SubgraphKey) (polling_interval : nat)
  (subgraph_retries : nat) : result SubgraphSchemaWatcher string :=
  new_from_introspect_runner subgraph_key RunnerUnknown polling_interval subgraph_retries.

(** [SubgraphSchemaWatcher::new_from_graph_ref]; [fetched] is the outcome of
    the registry [fetch::run]: the SDL and the routing URL the registry holds. *)
Definition new_from_graph_ref (graphos_subgraph_name : string) (routing_url : option string)
  (yaml_subgraph_name : string) (fetched : result (string * option string) string)
  (subgraph_retries : nat) : result SubgraphSchemaWatcher string :=
  match fetched with
  | Err e => Err e
  | Ok (contents, registry_url) =>
      match routing_url, registry_url with
      | Some u, _ => new_from_sdl (yaml_subgraph_name, u) contents subgraph_retries
      | None, Some u => new_from_sdl (yaml_subgraph_name, u) contents subgraph_retries
      | None, None =>
          Err ("Could not find routing URL in GraphOS for subgraph " ++ graphos_subgraph_name)
      end
  end.

(** What the user sees and what the watcher sends, in order. *)
Inductive WatcherEvent :=
| ConnectivityRestored (name : SubgraphName)
| RetryWarning (name : SubgraphName) (error : string)
| RetriesExhausted (name : SubgraphName)
| Sent (message : FollowerMessageKind).

Definition is_sent (ev : WatcherEvent) : bool :=
  match ev with Sent _ => true | _ => false end.

(** The outcome of one read of the source: the SDL and, for introspection,
    the concrete runner the read settled on; or the transport error. *)
Definition FetchOutcome := result (string * IntrospectRunnerKind) string.

(** [SubgraphSchemaWatcher::get_subgraph_definition_and_maybe_new_runner] *)
Definition get_subgraph_definition_and_maybe_new_runner (w : SubgraphSchemaWatcher)
  (io : FetchOutcome) : result (SubgraphDefinition * option SubgraphSchemaWatcherKind) string :=
  let '(name, url) := subgraph_key w in
  match schema_watcher_kind w with
  | Introspect RunnerUnknown polling_interval =>
      match io with
      | Ok (sdl, specific_runner) =>
          Ok (mkSubgraphDefinition name url sdl,
              Some (Introspect specific_runner polling_interval))
      | Err e => Err e
      end
  | Introspect _ _ | File _ =>
      match io with
      | Ok (sdl, _) => Ok (mkSubgraphDefinition name url sdl, None)
      | Err e => Err e
      end
  | Once sdl => Ok (mkSubgraphDefinition name url sdl, None)
  end.

Section Watcher.

(** [FollowerMessenger]: sends one message to the leader. *)
Variable message_sender : FollowerMessageKind -> result unit string.

(** [SubgraphSchemaWatcher::update_subgraph]: one read of the source. *)
Definition update_subgraph_step (w : SubgraphSchemaWatcher) (last_message : option string)
  (io : FetchOutcome)
  : SubgraphSchemaWatcher * list WatcherEvent * result (option string) string :=
  let name := fst (subgraph_key w) in
  match get_subgraph_definition_and_maybe_new_runner w io with
  | Ok (subgraph_definition, maybe_new_refresher) =>
      let w1 := match maybe_new_refresher with
                | Some new_refresher => set_schema_refresher w new_refresher
                | None => w
                end in
      let reset := set_countdown w1 (subgraph_retries w1) in
      match last_message with
      | Some last =>
          if negb (String.eqb (def_sdl subgraph_definition) last) then
            let restored :=
              if subgraph_retry_countdown w1 <? subgraph_retries w1
              then [ConnectivityRestored name] else [] in
            let msg := UpdateSubgraph subgraph_definition in
            match message_sender msg with
            | Err e => (w1, app restored [Sent msg], Err e)
            | Ok _ => (reset, app restored [Sent msg], Ok (Some (def_sdl subgraph_definition)))
            end
          else (reset, [], Ok (Some (def_sdl subgraph_definition)))
      | None =>
          let msg := AddSubgraph subgraph_definition in
          match message_sender msg with
          | Err e => (w1, [Sent msg], Err e)
          | Ok _ => (reset, [Sent msg], Ok (Some (def_sdl subgraph_definition)))
          end
      end
  | Err e =>
      if 0 <? subgraph_retry_countdown w then
        (set_countdown w (subgraph_retry_countdown w - 1), [RetryWarning name e], Ok (Some e))
      else
        let msg := RemoveSubgraph name in
        match message_sender msg with
        | Err e' => (w, [RetriesExhausted name; Sent msg], Err e')
        | Ok _ => (w, [RetriesExhausted name; Sent msg], Ok None)
        end
  end.

(** [loop { last_message = self.update_subgraph(last_message.as_ref(), ..)?; .. }]
    run over the reads observed so far; [Ok] carries the [last_message] the
    loop holds after them (it is still polling), [Err] means it returned. *)
Fixpoint watch_loop (w : SubgraphSchemaWatcher) (last_message : option string)
  (ios : list FetchOutcome)
  : SubgraphSchemaWatcher * list WatcherEvent * result (option string) string :=
  match ios with
  | [] => (w, [], Ok last_message)
  | io :: rest =>
      let '(w1, ev1, r1) := update_subgraph_step w last_message io in
      match r1 with
      | Err e => (w1, ev1, Err e)
      | Ok last' =>
          let '(w2, ev2, r2) := watch_loop w1 last' rest in
          (w2, app ev1 ev2, r2)
      end
  end.

(** [SubgraphSchemaWatcher::watch_subgraph_for_changes]: an introspection
    watcher polls forever, a file watcher reads once and then once per change
    event (both are [watch_loop] from [None]); a [Once] watcher reads once and
    returns. *)
Definition watch_subgraph_for_changes (w : SubgraphSchemaWatcher) (ios : list FetchOutcome)
  : SubgraphSchemaWatcher * list WatcherEvent * result (option string) string :=
  match schema_watcher_kind w with
  | Once _ =>
      (* the read of a [Once] source ignores [io] *)
      let '(w1, ev, r) := update_subgraph_step w None (Err EmptyString) in
      (w1, ev, match r with Ok _ => Ok None | Err e => Err e end)
  | _ => watch_loop w None ios
  end.

End Watcher.

(** ** Registry messages

    The three arms of [LeaderSession::handle_follower_message_kind] that
    touch the registry. *)
Inductive LeaderOp :=
| OpAdd (subgraph_entry : SubgraphEntry)
| OpUpdate (subgraph_entry : SubgraphEntry)
| OpRemove (subgraph_name : SubgraphName).

Section Ops.

Context {ComposeRunner RouterRunner : Type}.
Variable compose_run : ComposeRunner -> SupergraphConfig -> ComposeRunner * CompositionResult.
Variable router_spawn : RouterRunner -> RouterRunner * result unit string.
Variable router_kill : RouterRunner -> RouterRunner * result unit string.

Definition run_op (s : @LeaderSession ComposeRunner RouterRunner) (op : LeaderOp)
  : LeaderSession * LeaderMessageKind :=
  match op with
  | OpAdd e => add_subgraph compose_run router_spawn router_kill s e
  | OpUpdate e => update_subgraph compose_run router_spawn router_kill s e
  | OpRemove n => remove_subgraph compose_run router_spawn router_kill s n
  end.

End Ops.

(** Whether the message reaches a call of [LeaderSession::compose]. *)
Definition recomposes {C R} (s : @LeaderSession C R) (op : LeaderOp) : bool :=
  match op with
  | OpAdd ((name, url), _) =>
      match lookup (name, url) (subgraphs s) with None => true | Some _ => false end
  | OpUpdate ((name, url), sdl) =>
      match lookup (name, url) (subgraphs s) with
      | None => true
      | Some prev_sdl => negb (String.eqb prev_sdl sdl)
      end
  | OpRemove n =>
      match find_by_name n (subgraphs s) with Some _ => true | None => false end
  end.

(** ** Concrete collaborators

    A composer that always answers the same, a router supervisor that
    records what it was asked, and a messenger whose sends all go through. *)

Definition composer_returning (r : CompositionResult) (c : nat) (_ : SupergraphConfig)
  : nat * CompositionResult := (S c, r).

Definition RouterLog := list string.
Definition router_spawn_log (r : RouterLog) : RouterLog * result unit string :=
  (app r ["spawn"], Ok tt).
Definition router_spawn_failing (r : RouterLog) : RouterLog * result unit string :=
  (app r ["spawn"], Err "router failed to start").
Definition router_kill_log (r : RouterLog) : RouterLog * result unit string :=
  (app r ["kill"], Ok tt).

Definition messenger_ok (_ : FollowerMessageKind) : result unit string := Ok tt.
Definition messenger_closed (_ : FollowerMessageKind) : result unit string :=
  Err "the main `rover dev` process is gone".

(** The notices about the retry budget: a warning and a restoration. *)
Definition is_retry_notice (ev : WatcherEvent) : bool :=
  match ev with RetryWarning _ _ | ConnectivityRestored _ => true | _ => false end.

(** ** Leader message dispatch *)

Module Protocol.

(** [FollowerMessageKind] as the leader receives it. *)
Inductive FollowerMessageKind :=
| AddSubgraph (subgraph_entry : SubgraphEntry)
| UpdateSubgraph (subgraph_entry : SubgraphEntry)
| RemoveSubgraph (subgraph_name : SubgraphName)
| GetSubgraphs
| Shutdown
| HealthCheck
| GetVersion (follower_version : string).

(** [FollowerMessage] *)
Record FollowerMessage := mkFollowerMessage
  { is_from_main_session : bool;
    kind : FollowerMessageKind }.

Definition is_shutdown (m : FollowerMessage) : bool :=
  match kind m with Shutdown => true | _ => false end.

End Protocol.

(** Lines written by [eprintln!], [tracing::info!] and [tracing::debug!]. *)
Inductive OutputLine :=
| Stderr (line : string)
| TraceInfo (line : string)
| TraceDebug (line : string).

Fixpoint nat_to_string_aux (fuel n : nat) (acc : string) : string :=
  match fuel with
  | 0 => acc
  | S f =>
      let acc' := String (ascii_of_nat (48 + n mod 10)) acc in
      match n / 10 with
      | 0 => acc'
      | q => nat_to_string_aux f q acc'
      end
  end.

(** [format!("{}", n)] on a [usize]. *)
Definition nat_to_string (n : nat) : string := nat_to_string_aux (S n) n "".

(** [LeaderMessageKind::print] *)
Definition print (m : LeaderMessageKind) : list OutputLine :=
  match m with
  | ErrorNotification error => [Stderr error]
  | CompositionSuccess action => [Stderr ("successfully composed after " ++ action)]
  | LeaderSessionInfo subgraphs =>
      let subgraphs :=
        match List.length subgraphs with
        | 0 => "no subgraphs"
        | 1 => "1 subgraph"
        | l => nat_to_string l ++ " subgraphs"
        end in
      [TraceInfo ("the main `rover dev` process currently has " ++ subgraphs)]
  | GetVersion _ leader_version =>
      [TraceDebug ("the main `rover dev` process is running version " ++ leader_version)]
  | MessageReceived =>
      [TraceDebug "the main `rover dev` process acknowledged the message, but did not take an action"]
  end.

(** What handling one message led to: a reply, or the end of the process. *)
Inductive Handled :=
| Replied (reply : LeaderMessageKind)
| Exited (status : nat).

Section Dispatch.

Context {ComposeRunner RouterRunner : Type}.
Variable compose_run : ComposeRunner -> SupergraphConfig -> ComposeRunner * CompositionResult.
Variable router_spawn : RouterRunner -> RouterRunner * result unit string.
Variable router_kill : RouterRunner -> RouterRunner * result unit string.
(** [PKG_VERSION] *)
Variable PKG_VERSION : string.

(** [LeaderSession::get_subgraphs] *)
Definition get_subgraphs (s : @LeaderSession ComposeRunner RouterRunner) : list SubgraphKey :=
  map fst (subgraphs s).

(** [LeaderSession::shutdown]: kill the router (its error is only logged),
    remove the socket file, [std::process::exit(1)]. *)
Definition shutdown (s : @LeaderSession ComposeRunner RouterRunner) : LeaderSession * nat :=
  (with_router_runner s (fst (router_kill (router_runner s))), 1).

(** [LeaderSession::handle_follower_message_kind]; the [message_received()]
    after [self.shutdown()] is never reached since the process has exited. *)
Definition handle_follower_message_kind (s : @LeaderSession ComposeRunner RouterRunner)
  (follower_message : Protocol.FollowerMessageKind) : LeaderSession * Handled :=
  match follower_message with
  | Protocol.AddSubgraph subgraph_entry =>
      let '(s', r) := add_subgraph compose_run router_spawn router_kill s subgraph_entry in
      (s', Replied r)
  | Protocol.UpdateSubgraph subgraph_entry =>
      let '(s', r) := update_subgraph compose_run router_spawn router_kill s subgraph_entry in
      (s', Replied r)
  | Protocol.RemoveSubgraph subgraph_name =>
      let '(s', r) := remove_subgraph compose_run router_spawn router_kill s subgraph_name in
      (s', Replied r)
  | Protocol.GetSubgraphs => (s, Replied (LeaderSessionInfo (get_subgraphs s)))
  | Protocol.Shutdown => let '(s', status) := shutdown s in (s', Exited status)
  | Protocol.HealthCheck => (s, Replied MessageReceived)
  | Protocol.GetVersion follower_version =>
      (s, Replied (GetVersion follower_version PKG_VERSION))
  end.

(** [LeaderSession::receive_all_subgraph_updates] over the messages received
    so far: the replies sent on the leader channel, the lines
    [LeaderMessageKind::print] writes for the replies to attached sessions,
    and the exit status once the process has exited.  The other log lines
    (the loop's [tracing::trace!] lines, the [tracing::debug!] line of
    [get_subgraphs], the logged kill error of [shutdown]) are not recorded. *)
Fixpoint receive_all_subgraph_updates (s : @LeaderSession ComposeRunner RouterRunner)
  (messages : list Protocol.FollowerMessage)
  : LeaderSession * list LeaderMessageKind * list OutputLine * option nat :=
  match messages with
  | [] => (s, [], [], None)
  | follower_message :: rest =>
      let '(s1, handled) := handle_follower_message_kind s (Protocol.kind follower_message) in
      match handled with
      | Exited status => (s1, [], [], Some status)
      | Replied leader_message =>
          let printed :=
            if Protocol.is_from_main_session follower_message then [] else print leader_message in
          let '(s2, replies, out, exit) := receive_all_subgraph_updates s1 rest in
          (s2, leader_message :: replies, app printed out, exit)
      end
  end.

End Dispatch.

(** ** Leader start-up *)

(** The steps [LeaderSession::new] takes on the machine. *)
Inductive StartupStep :=
| SentHealthCheck
| RemovedSocketFile
| ProbedRouterAddress
| InstallRouter
| InstallSupergraph (federation_version : FederationVersion)
| StartRouterConfig.

(** What the collaborators of [LeaderSession::new] answer. *)
Record StartupEnv := mkStartupEnv
  { create_socket_name : result unit string;
    leader_answers : bool;
    health_check_write : result unit string;
    router_socket_addr : string;
    router_address_free : bool;
    config_fed_version : option FederationVersion;
    override_dev_composition_version : option string;
    router_config_start : result unit string }.

Definition address_in_use_error (addr : string) : string :=
  "You cannot bind the router to '" ++ addr ++
  "' because that address is already in use by another process on this machine.".

Section Startup.

Context {ComposeRunner RouterRunner : Type}.
(** [ComposeRunner::new(..)] and [RouterRunner::new(..)] *)
Variable compose_runner0 : ComposeRunner.
Variable router_runner0 : RouterRunner.
(** [RouterRunner::maybe_install_router] and
    [ComposeRunner::maybe_install_supergraph], each on [&mut self]. *)
Variable maybe_install_router : RouterRunner -> RouterRunner * result unit string.
Variable maybe_install_supergraph :
  ComposeRunner -> FederationVersion -> ComposeRunner * result unit string.

(** [LeaderSession::new]: [Ok None] when a leader already answers on the
    socket, [Ok (Some _)] for a new leader, which holds the runners as the
    installers left them. *)
Definition LeaderSession_new (env : StartupEnv)
  : list StartupStep * result (option (@LeaderSession ComposeRunner RouterRunner)) string :=
  match create_socket_name env with
  | Err e => ([], Err e)
  | Ok _ =>
      if leader_answers env then
        match health_check_write env with
        | Err e => ([SentHealthCheck], Err e)
        | Ok _ => ([SentHealthCheck], Ok None)
        end
      else if negb (router_address_free env) then
        ([RemovedSocketFile; ProbedRouterAddress],
         Err (address_in_use_error (router_socket_addr env)))
      else
        let '(_, fv) := get_federation_version (config_fed_version env)
                          (override_dev_composition_version env) in
        match fv with
        | Err e => ([RemovedSocketFile; ProbedRouterAddress], Err e)
        | Ok federation_version =>
            let '(router_runner, router_installed) := maybe_install_router router_runner0 in
            match router_installed with
            | Err e => ([RemovedSocketFile; ProbedRouterAddress; InstallRouter], Err e)
            | Ok _ =>
                let steps := [RemovedSocketFile; ProbedRouterAddress; InstallRouter;
                              InstallSupergraph federation_version] in
                let '(compose_runner, supergraph_installed) :=
                  maybe_install_supergraph compose_runner0 federation_version in
                match supergraph_installed with
                | Err e => (steps, Err e)
                | Ok _ =>
                    match router_config_start env with
                    | Err e => (app steps [StartRouterConfig], Err e)
                    | Ok _ =>
                        (app steps [StartRouterConfig],
                         Ok (Some (mkLeaderSession [] compose_runner router_runner
                                     federation_version)))
                    end
                end
            end
        end
  end.

End Startup.

(** ** Persisted queries publishing ([persisted_queries/publish.rs]) *)

(** [GraphRef]: a graph name and a variant. *)
Record GraphRef := mkGraphRef { graph_name : string; variant : string }.

(** The arguments of [Publish] the run reads. *)
Record Publish := mkPublish
  { graph_ref : option GraphRef;
    graph_id : option string;
    list_id : option string;
    profile_name : string }.

(** A run returns the response, fails, or reaches [unreachable!()]. *)
Inductive PublishOutcome (R : Type) :=
| PublishOk (response : R)
| PublishErr (error : string)
| Unreachable.
Arguments PublishOk {R} response.
Arguments PublishErr {R} error.
Arguments Unreachable {R}.

(** The calls the run makes to GraphOS. *)
Inductive PublishCall :=
| DescribePQL (graph_ref : GraphRef)
| PublishOperations (graph_id list_id : string).

Section PublishRun.

Variable PersistedQueryManifest PublishResponse : Type.
(** [get_authenticated_client] *)
Variable get_authenticated_client : string -> result unit string.
(** [read_file_descriptor("operation manifest", ..)] *)
Variable raw_manifest : result string string.
(** [serde_json::from_str] *)
Variable parse_manifest : string -> option PersistedQueryManifest.
(** [describe_pql::run]: the id of the list linked to the variant. *)
Variable describe_pql : GraphRef -> result string string.
(** [publish::run] *)
Variable publish : string -> string -> PersistedQueryManifest -> result PublishResponse string.

Definition missing_list_id_error (graph_id : string) : string :=
  "You must specify a --list-id <LIST_ID> when publishing operations to --graph-id " ++ graph_id ++
  ", or, if a list is linked to a specific variant, you can leave --graph-id unspecified, and pass a full graph ref as a positional argument.".
Definition missing_graph_id_error (list_id : string) : string :=
  "You must specify a --graph-id <GRAPH_ID> when publishing operations to --list-id " ++ list_id ++
  ", or, if " ++ list_id ++ " is linked to a specific variant, you can leave --list-id unspecified, and pass a full graph ref as a positional argument.".
Definition missing_both_error : string :=
  "You must either specify a <GRAPH_REF> that has a linked persisted query list OR both a --graph_id <GRAPH_ID> and --list_id <LIST_ID>".

(** [Publish::run]: the calls made to GraphOS, in order, and the outcome. *)
Definition Publish_run (p : Publish) : list PublishCall * PublishOutcome PublishResponse :=
  match get_authenticated_client (profile_name p) with
  | Err e => ([], PublishErr e)
  | Ok _ =>
      match raw_manifest with
      | Err e => ([], PublishErr e)
      | Ok raw =>
          match parse_manifest raw with
          | None => ([], PublishErr ("JSON in " ++ raw ++ " was invalid"))
          | Some operation_manifest =>
              let ids :=
                match graph_ref p, graph_id p, list_id p with
                | Some gr, None, None =>
                    match describe_pql gr with
                    | Err e => ([DescribePQL gr], inr (PublishErr e))
                    | Ok id => ([DescribePQL gr], inl (graph_name gr, id))
                    end
                | None, Some gid, Some lid => ([], inl (gid, lid))
                | None, Some gid, None => ([], inr (PublishErr (missing_list_id_error gid)))
                | None, None, Some lid => ([], inr (PublishErr (missing_graph_id_error lid)))
                | None, None, None => ([], inr (PublishErr missing_both_error))
                | Some _, _, _ => ([], inr Unreachable)
                end in
              match ids with
              | (calls, inr outcome) => (calls, outcome)
              | (calls, inl (gid, lid)) =>
                  (app calls [PublishOperations gid lid],
                   match publish gid lid operation_manifest with
                   | Ok response => PublishOk response
                   | Err e => PublishErr e
                   end)
              end
          end
      end
  end.

End PublishRun.

(** Sessions and entries used in the examples below. *)
Definition session0 : @LeaderSession nat RouterLog := mkLeaderSession [] 0 [] LatestFedTwo.
Definition users_entry : SubgraphEntry := (("users", "http://u/"), "type Query{ me: ID }").
Definition posts_entry : SubgraphEntry := (("posts", "http://p/"), "type Query{ posts: [ID] }").
Definition session_users : @LeaderSession nat RouterLog :=
  mkLeaderSession [users_entry] 0 [] LatestFedTwo.
Definition users_u1 : SubgraphKey * SubgraphSdl := (("users", "http://u1/"), "type Query{ a: ID }").
Definition users_u2 : SubgraphKey * SubgraphSdl := (("users", "http://u2/"), "type Query{ b: ID }").

(** Whether the watcher reads a source that can fail (a file or an endpoint). *)
Definition reads_source (k : SubgraphSchemaWatcherKind) : bool :=
  match k with Once _ => false | _ => true end.

Definition flaky_watcher : SubgraphSchemaWatcher :=
  mkWatcher (Introspect RunnerGraph 1) ("flaky", "http://flaky/") 2 2.

(** Messages, a machine and a GraphOS used in the examples below. *)
Definition composer_ok := composer_returning (Ok (Some "supergraph")).
Definition attached_add_users : Protocol.FollowerMessage :=
  Protocol.mkFollowerMessage false (Protocol.AddSubgraph users_entry).
Definition attached_health_check : Protocol.FollowerMessage :=
  Protocol.mkFollowerMessage false Protocol.HealthCheck.
Definition main_get_subgraphs : Protocol.FollowerMessage :=
  Protocol.mkFollowerMessage true Protocol.GetSubgraphs.
Definition main_shutdown : Protocol.FollowerMessage :=
  Protocol.mkFollowerMessage true Protocol.Shutdown.

Definition machine_free : StartupEnv :=
  mkStartupEnv (Ok tt) false (Ok tt) "127.0.0.1:4000" true None None (Ok tt).

(** Installers that record what they did and succeed. *)
Definition install_router_log (r : RouterLog) : RouterLog * result unit string :=
  (app r ["install router"], Ok tt).
Definition install_supergraph_count (c : nat) (_ : FederationVersion) : nat * result unit string :=
  (S c, Ok tt).

Definition pq_auth (_ : string) : result unit string := Ok tt.
Definition pq_raw : result string string := Ok "{}".
Definition pq_parse (raw : string) : option string := Some raw.
Definition pq_describe (gr : GraphRef) : result string string := Ok ("list-of-" ++ graph_name gr).
Definition pq_publish (graph_id list_id manifest : string) : result string string :=
  Ok ("published to " ++ list_id).

(** ** Registry lemmas *)

Lemma key_eqb_refl (k : SubgraphKey) : key_eqb k k = true.
Proof. destruct k; unfold key_eqb; simpl; rewrite !String.eqb_refl; reflexivity. Qed.

Lemma key_eqb_eq (k1 k2 : SubgraphKey) : key_eqb k1 k2 = true -> k1 = k2.
Proof.
  destruct k1, k2; unfold key_eqb; simpl.
  intros H; apply andb_prop in H as [H1 H2].
  apply String.eqb_eq in H1, H2; subst; reflexivity.
Qed.

Lemma lookup_insert_vacant (k : SubgraphKey) (v : SubgraphSdl) (m : Registry) :
  lookup k m = None -> lookup k (insert_vacant k v m) = Some v.
Proof.
  unfold insert_vacant; induction m as [|[k' v'] m IH]; simpl.
  - rewrite key_eqb_refl; reflexivity.
  - destruct (key_eqb k k'); [discriminate | exact IH].
Qed.

Lemma lookup_replace (k : SubgraphKey) (v : SubgraphSdl) (m : Registry) old :
  lookup k m = Some old -> lookup k (replace k v m) = Some v.
Proof.
  induction m as [|[k' v'] m IH]; simpl; [discriminate|].
  destruct (key_eqb k k') eqn:E; simpl; rewrite E; auto.
Qed.

Lemma lookup_remove_key_perm (k : SubgraphKey) (v : SubgraphSdl) (m : Registry) :
  lookup k m = Some v -> Permutation m ((k, v) :: remove_key k m).
Proof.
  induction m as [|[k' v'] m IH]; simpl; [discriminate|].
  destruct (key_eqb k k') eqn:E.
  - intros H; injection H as <-; apply key_eqb_eq in E; subst; reflexivity.
  - intros H; eapply perm_trans; [apply perm_skip, (IH H) | apply perm_swap].
Qed.

Lemma find_by_name_spec (n : SubgraphName) (m : Registry) k :
  find_by_name n m = Some k -> fst k = n /\ exists v, lookup k m = Some v.
Proof.
  induction m as [|[k' v'] m IH]; simpl; [discriminate|].
  destruct (String.eqb (fst k') n) eqn:E.
  - intros H; injection H as <-; apply String.eqb_eq in E.
    split; [exact E|]; exists v'; rewrite key_eqb_refl; reflexivity.
  - intros H; destruct (IH H) as [Hn [v Hv]]; split; [exact Hn|].
    destruct (key_eqb k k'); [exists v'; reflexivity | exists v; exact Hv].
Qed.

(** ** The composition driver *)

Section ComposeFacts.

Context {ComposeRunner RouterRunner : Type}.
Variable compose_run : ComposeRunner -> SupergraphConfig -> ComposeRunner * CompositionResult.
Variable router_spawn : RouterRunner -> RouterRunner * result unit string.
Variable router_kill : RouterRunner -> RouterRunner * result unit string.

Abbreviation recompose := (compose compose_run router_spawn router_kill).
Abbreviation with_rr := with_router_runner.
Abbreviation with_cr := with_compose_runner.

Lemma compose_composer_error (s : LeaderSession) c' e :
  compose_run (compose_runner s) (supergraph_config s) = (c', Err e) ->
  recompose s = (with_rr (with_cr s c') (fst (router_kill (router_runner s))), Err e).
Proof. intros H; unfold compose; rewrite H; reflexivity. Qed.

Lemma compose_no_new_schema (s : LeaderSession) c' :
  compose_run (compose_runner s) (supergraph_config s) = (c', Ok None) ->
  recompose s = (with_cr s c', Ok None).
Proof. intros H; unfold compose; rewrite H; reflexivity. Qed.

Lemma compose_new_schema (s : LeaderSession) c' sch r' u :
  compose_run (compose_runner s) (supergraph_config s) = (c', Ok (Some sch)) ->
  router_spawn (router_runner s) = (r', Ok u) ->
  recompose s = (with_rr (with_cr s c') r', Ok (Some sch)).
Proof. intros H Hs; unfold compose; rewrite H; simpl; rewrite Hs; reflexivity. Qed.

Lemma compose_spawn_error (s : LeaderSession) c' sch r' err :
  compose_run (compose_runner s) (supergraph_config s) = (c', Ok (Some sch)) ->
  router_spawn (router_runner s) = (r', Err err) ->
  recompose s = (with_rr (with_cr s c') (fst (router_kill r')), Err err).
Proof. intros H Hs; unfold compose; rewrite H; simpl; rewrite Hs; reflexivity. Qed.

Lemma compose_subgraphs (s : LeaderSession) : subgraphs (fst (recompose s)) = subgraphs s.
Proof.
  unfold compose.
  destruct (compose_run _ _) as [c' [[sch|]|e]]; simpl; auto.
  destruct (router_spawn _) as [rr [u|err]]; reflexivity.
Qed.

End ComposeFacts.

(** ** Leader claims *)

Section LeaderClaims.

Context {ComposeRunner RouterRunner : Type}.
Variable compose_run : ComposeRunner -> SupergraphConfig -> ComposeRunner * CompositionResult.
Variable router_spawn : RouterRunner -> RouterRunner * result unit string.
Variable router_kill : RouterRunner -> RouterRunner * result unit string.

Abbreviation recompose := (compose compose_run router_spawn router_kill).
Abbreviation add := (add_subgraph compose_run router_spawn router_kill).
Abbreviation update := (update_subgraph compose_run router_spawn router_kill).
Abbreviation remove := (remove_subgraph compose_run router_spawn router_kill).
Abbreviation run := (run_op compose_run router_spawn router_kill).

Lemma update_subgraph_lookup (s : LeaderSession) name url sdl :
  lookup (name, url) (subgraphs (fst (update s ((name, url), sdl)))) = Some sdl.
Proof.
  unfold update_subgraph, add_subgraph; simpl.
  destruct (lookup (name, url) (subgraphs s)) as [prev|] eqn:Hl.
  - destruct (String.eqb prev sdl) eqn:E; simpl.
    + apply String.eqb_eq in E; subst; exact Hl.
    + destruct (compose _ _ _ _) as [s2 cr] eqn:Hc.
      assert (Hs : subgraphs s2 = replace (name, url) sdl (subgraphs s))
        by (change s2 with (fst (s2, cr)); rewrite <- Hc; apply compose_subgraphs).
      destruct cr as [[x|]|err]; simpl; rewrite Hs; eapply lookup_replace; exact Hl.
  - destruct (compose _ _ _ _) as [s2 cr] eqn:Hc.
    assert (Hs : subgraphs s2 = insert_vacant (name, url) sdl (subgraphs s))
      by (change s2 with (fst (s2, cr)); rewrite <- Hc; apply compose_subgraphs).
    destruct cr as [[x|]|err]; [destruct (negb _)| |]; simpl; rewrite Hs;
      apply lookup_insert_vacant; exact Hl.
Qed.

Lemma add_subgraph_lookup (s : LeaderSession) name url sdl :
  lookup (name, url) (subgraphs s) = None ->
  lookup (name, url) (subgraphs (fst (add s ((name, url), sdl)))) = Some sdl.
Proof.
  intros Hl; pose proof (update_subgraph_lookup s name url sdl) as H.
  unfold update_subgraph in H; simpl in H; rewrite Hl in H.
  unfold add_subgraph; simpl; rewrite Hl; exact H.
Qed.

(** The reply of an AddSubgraph of an absent key, by the outcome of the
    composer and of the router start. *)
Lemma add_subgraph_absent_reply (s : LeaderSession) (name : SubgraphName) url sdl c' cr :
  lookup (name, url) (subgraphs s) = None ->
  compose_run (compose_runner s)
    (supergraph_config (with_subgraphs s (insert_vacant (name, url) sdl (subgraphs s))))
    = (c', cr) ->
  snd (add s ((name, url), sdl)) =
    match cr with
    | Err e => ErrorNotification e
    | Ok None => MessageReceived
    | Ok (Some _) =>
        match snd (router_spawn (router_runner s)) with
        | Err err => ErrorNotification err
        | Ok _ => if is_empty (subgraphs s) then MessageReceived
                  else add_subgraph_composition_success name
        end
    end.
Proof.
  intros Hl Hc; unfold add_subgraph; simpl; rewrite Hl.
  destruct cr as [[sch|]|e].
  - destruct (router_spawn (router_runner s)) as [r' [u|err]] eqn:Hs.
    + erewrite compose_new_schema; [| exact Hc | exact Hs].
      destruct (is_empty (subgraphs s)); reflexivity.
    + erewrite compose_spawn_error; [reflexivity | exact Hc | exact Hs].
  - erewrite compose_no_new_schema; [reflexivity | exact Hc].
  - erewrite compose_composer_error; [reflexivity | exact Hc].
Qed.

(** C1 (amended): a first AddSubgraph into an empty registry never replies
    CompositionSuccess.  It replies MessageReceived when the composer gives no
    new schema, or a new schema whose router start succeeds; it replies
    ErrorNotification only for a composer error or a failed router start,
    with that error.  An AddSubgraph of an absent key into a non-empty
    registry whose composer gives a new schema replies CompositionSuccess
    "adding the '<name>' subgraph" when the router (re)start succeeds, and
    ErrorNotification with the start error when it fails. *)
Theorem add_subgraph_first_never_composition_success (s : LeaderSession)
    (name : SubgraphName) (url : string) (sdl : SubgraphSdl) :
  let s1 := with_subgraphs s (insert_vacant (name, url) sdl (subgraphs s)) in
  (subgraphs s = [] ->
   is_composition_success (snd (add s ((name, url), sdl))) = false /\
   (snd (add s ((name, url), sdl)) = MessageReceived \/
    exists err, snd (add s ((name, url), sdl)) = ErrorNotification err) /\
   (forall c' e, compose_run (compose_runner s) (supergraph_config s1) = (c', Err e) ->
      snd (add s ((name, url), sdl)) = ErrorNotification e) /\
   (forall c', compose_run (compose_runner s) (supergraph_config s1) = (c', Ok None) ->
      snd (add s ((name, url), sdl)) = MessageReceived) /\
   (forall c' sch r' u, compose_run (compose_runner s) (supergraph_config s1) = (c', Ok (Some sch)) ->
      router_spawn (router_runner s) = (r', Ok u) ->
      snd (add s ((name, url), sdl)) = MessageReceived) /\
   (forall c' sch r' err, compose_run (compose_runner s) (supergraph_config s1) = (c', Ok (Some sch)) ->
      router_spawn (router_runner s) = (r', Err err) ->
      snd (add s ((name, url), sdl)) = ErrorNotification err) /\
   (forall err, snd (add s ((name, url), sdl)) = ErrorNotification err ->
      (exists c', compose_run (compose_runner s) (supergraph_config s1) = (c', Err err)) \/
      (exists c' sch r', compose_run (compose_runner s) (supergraph_config s1) = (c', Ok (Some sch)) /\
                         router_spawn (router_runner s) = (r', Err err)))) /\
  (forall c' sch r' res,
     subgraphs s <> [] ->
     lookup (name, url) (subgraphs s) = None ->
     compose_run (compose_runner s) (supergraph_config s1) = (c', Ok (Some sch)) ->
     router_spawn (router_runner s) = (r', res) ->
     snd (add s ((name, url), sdl)) =
       match res with
       | Ok _ => add_subgraph_composition_success name
       | Err err => ErrorNotification err
       end).
Proof.
  intros s1; split.
  - intros He.
    assert (Hl : lookup (name, url) (subgraphs s) = None) by (rewrite He; reflexivity).
    assert (Hreply := fun c' cr => add_subgraph_absent_reply s name url sdl c' cr Hl).
    assert (Hemp : is_empty (subgraphs s) = true) by (rewrite He; reflexivity).
    rewrite Hemp in Hreply.
    destruct (compose_run (compose_runner s) (supergraph_config s1)) as [c0 cr0] eqn:Hc0.
    destruct (router_spawn (router_runner s)) as [r0 res0] eqn:Hs0.
    pose proof (Hreply c0 cr0 Hc0) as Hr; cbn [snd] in Hr.
    split; [|split; [|split; [|split; [|split; [|split]]]]].
    + rewrite Hr; destruct cr0 as [[sch|]|e]; [destruct res0|..]; reflexivity.
    + rewrite Hr; destruct cr0 as [[sch|]|e]; [destruct res0|..]; eauto.
    + intros c' e Hc; injection Hc as -> ->; exact Hr.
    + intros c' Hc; injection Hc as -> ->; exact Hr.
    + intros c' sch r' u Hc Hs; injection Hc as -> ->; injection Hs as -> ->; exact Hr.
    + intros c' sch r' err Hc Hs; injection Hc as -> ->; injection Hs as -> ->; exact Hr.
    + intros err Herr; rewrite Hr in Herr.
      destruct cr0 as [[sch|]|e]; [destruct res0 as [u|err']|..]; try discriminate.
      * injection Herr as ->; right; eauto.
      * injection Herr as ->; left; eauto.
  - intros c' sch r' res Hne Hl Hc Hs.
    rewrite (add_subgraph_absent_reply s name url sdl c' (Ok (Some sch)) Hl Hc), Hs; cbn [snd].
    destruct res; [destruct (subgraphs s); [contradiction | reflexivity] | reflexivity].
Qed.

(** C2 (amended): only an exact (name, url) key already in the registry is a
    conflict: the reply is ErrorNotification and the session is unchanged.
    A key with a known name but another URL is absent, and is inserted. *)
Theorem add_subgraph_exact_key_conflict (s : LeaderSession) name url sdl :
  (forall old, lookup (name, url) (subgraphs s) = Some old ->
     add s ((name, url), sdl) = (s, ErrorNotification (already_exists_error name url))) /\
  (lookup (name, url) (subgraphs s) = None ->
     subgraphs (fst (add s ((name, url), sdl))) = insert_vacant (name, url) sdl (subgraphs s)).
Proof.
  split.
  - intros old Hl; unfold add_subgraph; simpl; rewrite Hl; reflexivity.
  - intros Hl; unfold add_subgraph; simpl; rewrite Hl.
    destruct (compose _ _ _ _) as [s2 cr] eqn:Hc.
    assert (Hs : subgraphs s2 = insert_vacant (name, url) sdl (subgraphs s))
      by (change s2 with (fst (s2, cr)); rewrite <- Hc; apply compose_subgraphs).
    destruct cr as [[x|]|err]; [destruct (negb _)| |]; exact Hs.
Qed.

(** C6 (amended): a second identical UpdateSubgraph leaves the session as the
    first left it and replies MessageReceived, so two identical updates reply
    at most one CompositionSuccess; an update whose SDL equals the stored SDL
    replies MessageReceived and does not recompose. *)
Theorem update_subgraph_idempotent (s : LeaderSession) name url sdl :
  let e := ((name, url), sdl) in
  update (fst (update s e)) e = (fst (update s e), MessageReceived) /\
  List.length (filter is_composition_success [snd (update s e); snd (update (fst (update s e)) e)]) <= 1 /\
  (lookup (name, url) (subgraphs s) = Some sdl -> update s e = (s, MessageReceived)).
Proof.
  intros e.
  assert (Hsame : forall s0 : LeaderSession,
             lookup (name, url) (subgraphs s0) = Some sdl -> update s0 e = (s0, MessageReceived)).
  { intros s0 H; unfold update_subgraph, e; simpl; rewrite H, String.eqb_refl; reflexivity. }
  assert (H1 : update (fst (update s e)) e = (fst (update s e), MessageReceived))
    by (apply Hsame, update_subgraph_lookup).
  split; [exact H1|]; split; [|exact (Hsame s)].
  rewrite H1; cbn [filter snd]; destruct (is_composition_success _); cbn; auto.
Qed.

(** C7: every recomposition triggered by add, update or remove: a composer
    error replies ErrorNotification with the composer's error, the router is
    only killed (whatever the kill returns) and not restarted; no new schema
    leaves the router alone and replies MessageReceived; a new schema makes
    the router supervisor (re)start the router: when the start succeeds the
    session keeps the restarted router and the reply is no ErrorNotification,
    when it fails the router is killed and the reply is ErrorNotification
    with the start error. *)
Theorem compose_outcomes (s : LeaderSession) (op : LeaderOp) :
  recomposes s op = true ->
  exists m,
    let s1 := with_subgraphs s m in
    (forall c' e, compose_run (compose_runner s) (supergraph_config s1) = (c', Err e) ->
       run s op = (with_router_runner (with_compose_runner s1 c')
                     (fst (router_kill (router_runner s))), ErrorNotification e)) /\
    (forall c', compose_run (compose_runner s) (supergraph_config s1) = (c', Ok None) ->
       run s op = (with_compose_runner s1 c', MessageReceived)) /\
    (forall c' sch r' res, compose_run (compose_runner s) (supergraph_config s1) = (c', Ok (Some sch)) ->
       router_spawn (router_runner s) = (r', res) ->
       match res with
       | Ok _ => fst (run s op) = with_router_runner (with_compose_runner s1 c') r' /\
                 is_error_notification (snd (run s op)) = false
       | Err err => run s op = (with_router_runner (with_compose_runner s1 c') (fst (router_kill r')),
                                ErrorNotification err)
       end).
Proof.
  intros Hr.
  assert (Hadd : forall name url sdl, lookup (name, url) (subgraphs s) = None ->
    let s1 := with_subgraphs s (insert_vacant (name, url) sdl (subgraphs s)) in
    (forall c' e, compose_run (compose_runner s) (supergraph_config s1) = (c', Err e) ->
       add s ((name, url), sdl) = (with_router_runner (with_compose_runner s1 c')
                     (fst (router_kill (router_runner s))), ErrorNotification e)) /\
    (forall c', compose_run (compose_runner s) (supergraph_config s1) = (c', Ok None) ->
       add s ((name, url), sdl) = (with_compose_runner s1 c', MessageReceived)) /\
    (forall c' sch r' res, compose_run (compose_runner s) (supergraph_config s1) = (c', Ok (Some sch)) ->
       router_spawn (router_runner s) = (r', res) ->
       match res with
       | Ok _ => fst (add s ((name, url), sdl)) = with_router_runner (with_compose_runner s1 c') r' /\
                 is_error_notification (snd (add s ((name, url), sdl))) = false
       | Err err => add s ((name, url), sdl) =
                      (with_router_runner (with_compose_runner s1 c') (fst (router_kill r')),
                       ErrorNotification err)
       end)).
  { intros name url sdl Hl s1; unfold add_subgraph; simpl; rewrite Hl.
    split; [|split].
    - intros c' e Hc; erewrite compose_composer_error; [reflexivity | exact Hc].
    - intros c' Hc; erewrite compose_no_new_schema; [reflexivity | exact Hc].
    - intros c' sch r' [u|err] Hc Hs.
      + erewrite compose_new_schema; [| exact Hc | exact Hs].
        destruct (negb _); split; reflexivity.
      + erewrite compose_spawn_error; [reflexivity | exact Hc | exact Hs]. }
  destruct op as [[[name url] sdl]|[[name url] sdl]|n]; simpl in Hr.
  - destruct (lookup (name, url) (subgraphs s)) eqn:Hl; [discriminate|].
    eexists; exact (Hadd name url sdl Hl).
  - destruct (lookup (name, url) (subgraphs s)) as [prev|] eqn:Hl.
    + exists (replace (name, url) sdl (subgraphs s)); simpl.
      unfold update_subgraph; simpl; rewrite Hl, Hr.
      split; [|split].
      * intros c' e Hc; erewrite compose_composer_error; [reflexivity | exact Hc].
      * intros c' Hc; erewrite compose_no_new_schema; [reflexivity | exact Hc].
      * intros c' sch r' [u|err] Hc Hs.
        -- erewrite compose_new_schema; [| exact Hc | exact Hs]; split; reflexivity.
        -- erewrite compose_spawn_error; [reflexivity | exact Hc | exact Hs].
    + eexists; pose proof (Hadd name url sdl Hl) as Ha; simpl in *.
      unfold run_op, update_subgraph; simpl; rewrite Hl in *; exact Ha.
  - destruct (find_by_name n (subgraphs s)) as [[name url]|] eqn:Hf; [|discriminate].
    exists (remove_key (name, url) (subgraphs s)); simpl.
    unfold remove_subgraph; rewrite Hf.
    split; [|split].
    + intros c' e Hc; erewrite compose_composer_error; [reflexivity | exact Hc].
    + intros c' Hc; erewrite compose_no_new_schema; [reflexivity | exact Hc].
    + intros c' sch r' [u|err] Hc Hs.
      * erewrite compose_new_schema; [| exact Hc | exact Hs]; split; reflexivity.
      * erewrite compose_spawn_error; [reflexivity | exact Hc | exact Hs].
Qed.

End LeaderClaims.

Section LeaderRegistryClaims.

Context {ComposeRunner RouterRunner : Type}.
Variable compose_run : ComposeRunner -> SupergraphConfig -> ComposeRunner * CompositionResult.
Variable router_spawn : RouterRunner -> RouterRunner * result unit string.
Variable router_kill : RouterRunner -> RouterRunner * result unit string.

Abbreviation recompose := (compose compose_run router_spawn router_kill).
Abbreviation add := (add_subgraph compose_run router_spawn router_kill).
Abbreviation update := (update_subgraph compose_run router_spawn router_kill).
Abbreviation remove := (remove_subgraph compose_run router_spawn router_kill).

(** C8 (amended): RemoveSubgraph(name) with no key of that name replies
    MessageReceived and leaves the session unchanged.  Otherwise it removes
    exactly one entry, the first of that name in the map's iteration order,
    recomposes, and replies ErrorNotification on a composition error,
    CompositionSuccess "removing the '<name>' subgraph" on a new schema and
    MessageReceived otherwise. *)
Theorem remove_subgraph_by_name (s : LeaderSession) (n : SubgraphName) :
  (find_by_name n (subgraphs s) = None -> remove s n = (s, MessageReceived)) /\
  (forall k, find_by_name n (subgraphs s) = Some k ->
     fst k = n /\
     (exists v, Permutation (subgraphs s) ((k, v) :: remove_key k (subgraphs s))) /\
     remove s n =
       (fst (recompose (with_subgraphs s (remove_key k (subgraphs s)))),
        match snd (recompose (with_subgraphs s (remove_key k (subgraphs s)))) with
        | Err e => ErrorNotification e
        | Ok (Some _) => remove_subgraph_composition_success n
        | Ok None => MessageReceived
        end)).
Proof.
  split.
  - intros Hf; unfold remove_subgraph; rewrite Hf; reflexivity.
  - intros k Hf; destruct (find_by_name_spec _ _ _ Hf) as [Hn [v Hv]].
    split; [exact Hn|]; split; [exists v; apply lookup_remove_key_perm; exact Hv|].
    destruct k as [name url]; simpl in Hn; subst name.
    unfold remove_subgraph; rewrite Hf.
    destruct (compose _ _ _ _) as [s2 [[x|]|e]]; reflexivity.
Qed.

(** C9 (amended): the leader stores the SDL it is sent as it is, the empty
    string included: after an UpdateSubgraph, or an AddSubgraph of an absent
    key, the key maps to the sent SDL whatever composition returned. *)
Theorem registry_stores_sent_sdl (s : LeaderSession) name url sdl :
  lookup (name, url) (subgraphs (fst (update s ((name, url), sdl)))) = Some sdl /\
  (lookup (name, url) (subgraphs s) = None ->
   lookup (name, url) (subgraphs (fst (add s ((name, url), sdl)))) = Some sdl).
Proof.
  split; [apply update_subgraph_lookup | apply add_subgraph_lookup].
Qed.

End LeaderRegistryClaims.

(** ** Leader witnesses and counterexamples *)

Lemma add_subgraph_first_never_composition_success_witness :
  snd (add_subgraph (composer_returning (Ok (Some "schema"))) router_spawn_log router_kill_log
         session0 users_entry) = MessageReceived /\
  snd (add_subgraph (composer_returning (Ok (Some "schema"))) router_spawn_log router_kill_log
         session_users posts_entry) = add_subgraph_composition_success "posts".
Proof.
  split.
  - apply (proj1 (proj2 (proj2 (proj2 (proj2
             (proj1 (add_subgraph_first_never_composition_success
                       (composer_returning (Ok (Some "schema"))) router_spawn_log router_kill_log
                       session0 "users" "http://u/" "type Query{ me: ID }") eq_refl)))))
             1 "schema" ["spawn"] tt); reflexivity.
  - apply (proj2 (add_subgraph_first_never_composition_success
                    (composer_returning (Ok (Some "schema"))) router_spawn_log router_kill_log
                    session_users "posts" "http://p/" "type Query{ posts: [ID] }")
             1 "schema" ["spawn"] (Ok tt));
      [discriminate | reflexivity | reflexivity | reflexivity].
Defined.

(** C1: a first add whose composition fails replies ErrorNotification, not
    MessageReceived. *)
Lemma add_subgraph_first_composer_error :
  snd (add_subgraph (composer_returning (Err "composition failed")) router_spawn_log
         router_kill_log session0 users_entry) = ErrorNotification "composition failed".
Proof. reflexivity. Qed.

Lemma add_subgraph_exact_key_conflict_witness :
  add_subgraph (composer_returning (Ok None)) router_spawn_log router_kill_log
    session_users users_entry
  = (session_users, ErrorNotification (already_exists_error "users" "http://u/")) /\
  subgraphs (fst (add_subgraph (composer_returning (Ok None)) router_spawn_log router_kill_log
                    session_users posts_entry))
  = insert_vacant ("posts", "http://p/") "type Query{ posts: [ID] }" [users_entry].
Proof.
  split.
  - apply (proj1 (add_subgraph_exact_key_conflict (composer_returning (Ok None))
                    router_spawn_log router_kill_log session_users "users" "http://u/"
                    "type Query{ me: ID }") "type Query{ me: ID }"); reflexivity.
  - apply (proj2 (add_subgraph_exact_key_conflict (composer_returning (Ok None))
                    router_spawn_log router_kill_log session_users "posts" "http://p/"
                    "type Query{ posts: [ID] }")); reflexivity.
Defined.

(** C2: an entry with a registered name and another URL is not a conflict:
    it is inserted next to the first and the reply is MessageReceived. *)
Lemma add_subgraph_same_name_other_url_inserted :
  add_subgraph (composer_returning (Ok None)) router_spawn_log router_kill_log
    session_users (("users", "http://u2/"), "type Query{ me: ID }")
  = (mkLeaderSession [users_entry; (("users", "http://u2/"), "type Query{ me: ID }")]
       1 [] LatestFedTwo, MessageReceived).
Proof. reflexivity. Qed.

Lemma update_subgraph_idempotent_witness :
  update_subgraph (composer_returning (Ok None)) router_spawn_log router_kill_log
    session_users users_entry = (session_users, MessageReceived).
Proof.
  apply (proj2 (proj2 (update_subgraph_idempotent (composer_returning (Ok None))
                         router_spawn_log router_kill_log session_users
                         "users" "http://u/" "type Query{ me: ID }"))).
  reflexivity.
Defined.

(** C6: an update that changes the SDL but yields no new schema replies
    MessageReceived twice: no CompositionSuccess at all. *)
Lemma update_subgraph_changed_sdl_no_success :
  let upd := update_subgraph (composer_returning (Ok None)) router_spawn_log router_kill_log in
  let e := (("users", "http://u/"), "type Query{ me: ID! }") in
  lookup ("users", "http://u/") (subgraphs session_users) = Some "type Query{ me: ID }" /\
  snd (upd session_users e) = MessageReceived /\
  snd (upd (fst (upd session_users e)) e) = MessageReceived.
Proof. split; [|split]; reflexivity. Qed.

Lemma compose_outcomes_witness :
  (snd (run_op (composer_returning (Err "boom")) router_spawn_log router_kill_log
          session_users (OpAdd posts_entry)) = ErrorNotification "boom" /\
   router_runner (fst (run_op (composer_returning (Err "boom")) router_spawn_log router_kill_log
                         session_users (OpAdd posts_entry))) = ["kill"]) /\
  (snd (run_op (composer_returning (Ok (Some "schema"))) router_spawn_failing router_kill_log
          session_users (OpAdd posts_entry)) = ErrorNotification "router failed to start" /\
   router_runner (fst (run_op (composer_returning (Ok (Some "schema"))) router_spawn_failing
                         router_kill_log session_users (OpAdd posts_entry))) = ["spawn"; "kill"]).
Proof.
  split.
  - destruct (compose_outcomes (composer_returning (Err "boom")) router_spawn_log router_kill_log
                session_users (OpAdd posts_entry) eq_refl) as [m [H1 _]].
    rewrite (H1 1 "boom" eq_refl); split; reflexivity.
  - destruct (compose_outcomes (composer_returning (Ok (Some "schema"))) router_spawn_failing
                router_kill_log session_users (OpAdd posts_entry) eq_refl) as [m [_ [_ H3]]].
    pose proof (H3 1 "schema" ["spawn"] (Err "router failed to start") eq_refl eq_refl) as H.
    cbn beta iota in H; rewrite H; split; reflexivity.
Defined.

Lemma remove_subgraph_by_name_witness :
  remove_subgraph (composer_returning (Ok None)) router_spawn_log router_kill_log session0 "users"
  = (session0, MessageReceived) /\
  fst ("users", "http://u/") = "users".
Proof.
  split.
  - apply (proj1 (remove_subgraph_by_name (composer_returning (Ok None)) router_spawn_log
                    router_kill_log session0 "users")); reflexivity.
  - apply (proj2 (remove_subgraph_by_name (composer_returning (Ok None)) router_spawn_log
                    router_kill_log session_users "users") ("users", "http://u/")); reflexivity.
Defined.

(** C8: the same registry iterated in two orders (two hasher seeds) loses a
    different entry on RemoveSubgraph "users". *)
Lemma remove_subgraph_depends_on_iteration_order :
  let rm := remove_subgraph (composer_returning (Ok None)) router_spawn_log router_kill_log in
  Permutation [users_u1; users_u2] [users_u2; users_u1] /\
  subgraphs (fst (rm (mkLeaderSession [users_u1; users_u2] 0 [] LatestFedTwo) "users")) = [users_u2] /\
  subgraphs (fst (rm (mkLeaderSession [users_u2; users_u1] 0 [] LatestFedTwo) "users")) = [users_u1].
Proof. split; [apply perm_swap | split; reflexivity]. Qed.

Lemma registry_stores_sent_sdl_witness :
  lookup ("users", "http://u/")
    (subgraphs (fst (add_subgraph (composer_returning (Ok (Some "schema"))) router_spawn_log
                       router_kill_log session0 (("users", "http://u/"), ""))))
  = Some "".
Proof.
  apply (proj2 (registry_stores_sent_sdl (composer_returning (Ok (Some "schema")))
                  router_spawn_log router_kill_log session0 "users" "http://u/" "")).
  reflexivity.
Defined.

(** C9: an AddSubgraph with an empty SDL whose composition succeeds (a new
    schema, the router spawned) leaves the empty SDL in the registry. *)
Lemma add_subgraph_empty_sdl_kept :
  add_subgraph (composer_returning (Ok (Some "schema"))) router_spawn_log router_kill_log
    session0 (("users", "http://u/"), "")
  = (mkLeaderSession [(("users", "http://u/"), "")] 1 ["spawn"] LatestFedTwo, MessageReceived).
Proof. reflexivity. Qed.

(** ** Federation version claims *)




(** ** Watcher claims *)

Lemma get_definition_error (w : SubgraphSchemaWatcher) (e : string) :
  reads_source (schema_watcher_kind w) = true ->
  get_subgraph_definition_and_maybe_new_runner w (Err e) = Err e.
Proof.
  destruct w as [k [name url] r c]; simpl.
  unfold get_subgraph_definition_and_maybe_new_runner.
  destruct k as [[| |] pi|p|sdl]; simpl; intros H; try reflexivity; discriminate.
Qed.

Section WatcherClaims.

Variable message_sender : FollowerMessageKind -> result unit string.

Abbreviation step := (update_subgraph_step message_sender).
Abbreviation loop := (watch_loop message_sender).

Lemma watch_loop_failures_then_remove (es : list string) (e : string) :
  (forall m, message_sender m = Ok tt) ->
  forall w last,
  reads_source (schema_watcher_kind w) = true ->
  subgraph_retry_countdown w = List.length es ->
  loop w last (map Err (app es [e])) =
    (set_countdown w 0,
     app (map (RetryWarning (fst (subgraph_key w))) es)
         [RetriesExhausted (fst (subgraph_key w)); Sent (RemoveSubgraph (fst (subgraph_key w)))],
     Ok None).
Proof.
  intros Hs; induction es as [|e1 es IH]; intros w last Hk Hc.
  - simpl; unfold update_subgraph_step; rewrite (get_definition_error w e Hk), Hc, Hs.
    destruct w; simpl in *; subst; reflexivity.
  - simpl; unfold update_subgraph_step at 1; rewrite (get_definition_error w e1 Hk), Hc.
    simpl; rewrite Nat.sub_0_r.
    rewrite (IH (set_countdown w (List.length es)) (Some e1)); [| exact Hk | reflexivity].
    destruct w; reflexivity.
Qed.

Lemma step_success_resets (w : SubgraphSchemaWatcher) last sdl rk :
  (forall m, message_sender m = Ok tt) ->
  subgraph_retry_countdown (fst (fst (step w last (Ok (sdl, rk))))) = subgraph_retries w.
Proof.
  intros Hs; destruct w as [k [name url] r c].
  unfold update_subgraph_step; destruct k as [[| |] pi|p|sdl0]; simpl;
    destruct last as [l|]; try destruct (negb _); rewrite ?Hs; reflexivity.
Qed.

Lemma step_first_read_adds (w : SubgraphSchemaWatcher) sdl rk :
  (forall m, message_sender m = Ok tt) ->
  exists d, snd (fst (step w None (Ok (sdl, rk)))) = [Sent (AddSubgraph d)].
Proof.
  intros Hs; destruct w as [k [name url] r c].
  unfold update_subgraph_step; destruct k as [[| |] pi|p|sdl0]; simpl; rewrite Hs;
    eexists; reflexivity.
Qed.

(** C3 (amended): with every send going through, a watcher of a file or an
    endpoint whose countdown is at its budget B (as after a successful read)
    meets B+1 consecutive read failures as follows: the first B only warn and
    count down, sending nothing; the last warns that retries are exhausted
    and sends one RemoveSubgraph.  The loop does not stop: it goes on with no
    last message, and its next successful read sends AddSubgraph again.  Any
    successful read resets the countdown to B. *)
Theorem watcher_retry_hysteresis (w : SubgraphSchemaWatcher) last (es : list string) (e : string) :
  (forall m, message_sender m = Ok tt) ->
  reads_source (schema_watcher_kind w) = true ->
  subgraph_retry_countdown w = subgraph_retries w ->
  List.length es = subgraph_retries w ->
  loop w last (map Err (app es [e])) =
    (set_countdown w 0,
     app (map (RetryWarning (fst (subgraph_key w))) es)
         [RetriesExhausted (fst (subgraph_key w)); Sent (RemoveSubgraph (fst (subgraph_key w)))],
     Ok None) /\
  (forall sdl rk, exists d,
     snd (fst (step (set_countdown w 0) None (Ok (sdl, rk)))) = [Sent (AddSubgraph d)]) /\
  (forall w' last' sdl rk,
     subgraph_retry_countdown (fst (fst (step w' last' (Ok (sdl, rk))))) = subgraph_retries w').
Proof.
  intros Hs Hk Hc Hl; split; [|split].
  - apply watch_loop_failures_then_remove; [exact Hs | exact Hk | lia].
  - intros sdl rk; apply step_first_read_adds; exact Hs.
  - intros w' last' sdl rk; apply step_success_resets; exact Hs.
Qed.

(** C4 (amended): a read failure while the countdown is positive decrements
    it, warns, and sends nothing; the value the step hands back as the next
    [last_message] is the error text, not the last SDL.  So the next
    successful read with any SDL other than that text sends UpdateSubgraph,
    after a "connectivity restored" notice. *)
Theorem update_subgraph_retry_records_error (w : SubgraphSchemaWatcher) last io e :
  0 < subgraph_retry_countdown w ->
  subgraph_retry_countdown w <= subgraph_retries w ->
  get_subgraph_definition_and_maybe_new_runner w io = Err e ->
  step w last io =
    (set_countdown w (subgraph_retry_countdown w - 1), [RetryWarning (fst (subgraph_key w)) e],
     Ok (Some e)) /\
  (forall io' d k,
     message_sender (UpdateSubgraph d) = Ok tt ->
     get_subgraph_definition_and_maybe_new_runner
       (set_countdown w (subgraph_retry_countdown w - 1)) io' = Ok (d, k) ->
     def_sdl d <> e ->
     snd (fst (step (set_countdown w (subgraph_retry_countdown w - 1)) (Some e) io')) =
       [ConnectivityRestored (fst (subgraph_key w)); Sent (UpdateSubgraph d)]).
Proof.
  intros Hpos Hle Hg; split.
  - unfold update_subgraph_step; rewrite Hg.
    destruct (subgraph_retry_countdown w) eqn:Hc; [lia|]; reflexivity.
  - intros io' d k Hs Hg' Hd; unfold update_subgraph_step; rewrite Hg'.
    apply String.eqb_neq in Hd; rewrite Hd; simpl.
    assert (Hlt : (subgraph_retry_countdown w - 1 <? subgraph_retries w) = true)
      by (apply Nat.ltb_lt; lia).
    destruct k as [k|]; simpl; rewrite Hlt, Hs; reflexivity.
Qed.

(** C10 (amended): every constructor starts the countdown at 0, whatever the
    budget; so a first read that fails warns that retries are exhausted and
    sends RemoveSubgraph at once.  The watcher of a file or an endpoint does
    not stop there: it goes on with no last message. *)
Theorem new_watcher_countdown_zero :
  (forall key path r, new_from_file_path key path r = Ok (mkWatcher (File path) key r 0)) /\
  (forall key sdl r, new_from_sdl key sdl r = Ok (mkWatcher (Once sdl) key r 0)) /\
  (forall key runner pi r,
     new_from_introspect_runner key runner pi r = Ok (mkWatcher (Introspect runner pi) key r 0)) /\
  (forall key pi r, new_from_url key pi r = Ok (mkWatcher (Introspect RunnerUnknown pi) key r 0)) /\
  (forall g u y f r w, new_from_graph_ref g u y f r = Ok w -> subgraph_retry_countdown w = 0) /\
  (forall w last io e,
     subgraph_retry_countdown w = 0 ->
     get_subgraph_definition_and_maybe_new_runner w io = Err e ->
     message_sender (RemoveSubgraph (fst (subgraph_key w))) = Ok tt ->
     step w last io =
       (w, [RetriesExhausted (fst (subgraph_key w)); Sent (RemoveSubgraph (fst (subgraph_key w)))],
        Ok None)) /\
  (forall w e rest,
     subgraph_retry_countdown w = 0 ->
     reads_source (schema_watcher_kind w) = true ->
     message_sender (RemoveSubgraph (fst (subgraph_key w))) = Ok tt ->
     loop w None (Err e :: rest) =
       let '(w2, ev, r) := loop w None rest in
       (w2, RetriesExhausted (fst (subgraph_key w)) :: Sent (RemoveSubgraph (fst (subgraph_key w))) :: ev, r)).
Proof.
  split; [|split; [|split; [|split; [|split; [|split]]]]]; try reflexivity.
  - intros g u y f r w; unfold new_from_graph_ref, new_from_sdl.
    destruct f as [[contents [ru|]]|err]; destruct u; intros H; try discriminate;
      injection H as <-; reflexivity.
  - intros w last io e Hc Hg Hs; unfold update_subgraph_step; rewrite Hg, Hc, Hs; reflexivity.
  - intros w e rest Hc Hk Hs; simpl; unfold update_subgraph_step at 1.
    rewrite (get_definition_error w e Hk), Hc, Hs; simpl.
    destruct (loop w None rest) as [[w2 ev] r]; reflexivity.
Qed.

End WatcherClaims.

(** ** Watcher witnesses and counterexamples *)

Lemma watcher_retry_hysteresis_witness :
  watch_loop messenger_ok flaky_watcher (Some "type Query{ a: ID }")
    (map Err (app ["e1"; "e2"] ["e3"]))
  = (set_countdown flaky_watcher 0,
     [RetryWarning "flaky" "e1"; RetryWarning "flaky" "e2";
      RetriesExhausted "flaky"; Sent (RemoveSubgraph "flaky")],
     Ok None).
Proof.
  apply (proj1 (watcher_retry_hysteresis messenger_ok flaky_watcher (Some "type Query{ a: ID }")
                  ["e1"; "e2"] "e3" (fun _ => eq_refl) eq_refl eq_refl eq_refl)).
Defined.

(** C3: budget 2, three failures after a successful read, then one more
    successful read: the watcher did not stop, it adds the subgraph again. *)
Lemma watcher_keeps_polling_after_removal :
  snd (fst (watch_loop messenger_ok flaky_watcher (Some "type Query{ a: ID }")
              [Err "e1"; Err "e2"; Err "e3"; Ok ("type Query{ a: ID }", RunnerGraph)]))
  = [RetryWarning "flaky" "e1"; RetryWarning "flaky" "e2";
     RetriesExhausted "flaky"; Sent (RemoveSubgraph "flaky");
     Sent (AddSubgraph (mkSubgraphDefinition "flaky" "http://flaky/" "type Query{ a: ID }"))].
Proof. reflexivity. Qed.

Lemma update_subgraph_retry_records_error_witness :
  update_subgraph_step messenger_ok flaky_watcher (Some "type Query{ a: ID }") (Err "timeout")
  = (set_countdown flaky_watcher 1, [RetryWarning "flaky" "timeout"], Ok (Some "timeout")).
Proof.
  apply (proj1 (update_subgraph_retry_records_error messenger_ok flaky_watcher
                  (Some "type Query{ a: ID }") (Err "timeout") "timeout"
                  ltac:(simpl; lia) ltac:(simpl; lia) eq_refl)).
Defined.

(** C4: after a failed read the last message carried to the next poll is the
    error text, not the SDL fetched before. *)
Lemma update_subgraph_failure_replaces_last_message :
  snd (update_subgraph_step messenger_ok flaky_watcher (Some "type Query{ a: ID }")
         (Err "timeout"))
  = Ok (Some "timeout") /\ Some "timeout" <> Some "type Query{ a: ID }".
Proof. split; [reflexivity | discriminate]. Qed.

Lemma new_watcher_countdown_zero_witness :
  new_from_graph_ref "users" None "users" (Ok ("type Query{ me: ID }", Some "http://u/")) 5
    = Ok (mkWatcher (Once "type Query{ me: ID }") ("users", "http://u/") 5 0) /\
  subgraph_retry_countdown (mkWatcher (Once "type Query{ me: ID }") ("users", "http://u/") 5 0) = 0 /\
  update_subgraph_step messenger_ok (mkWatcher (File "users.graphql") ("users", "http://u/") 5 0)
    None (Err "no such file")
  = (mkWatcher (File "users.graphql") ("users", "http://u/") 5 0,
     [RetriesExhausted "users"; Sent (RemoveSubgraph "users")], Ok None).
Proof.
  split; [reflexivity|]; split.
  - apply (proj1 (proj2 (proj2 (proj2 (proj2 (new_watcher_countdown_zero messenger_ok)))))
             "users" None "users" (Ok ("type Query{ me: ID }", Some "http://u/")) 5);
      reflexivity.
  - apply (proj1 (proj2 (proj2 (proj2 (proj2 (proj2 (new_watcher_countdown_zero messenger_ok))))))
             (mkWatcher (File "users.graphql") ("users", "http://u/") 5 0) None
             (Err "no such file") "no such file"); reflexivity.
Defined.

(** C10: a fresh URL watcher with budget 5 whose first poll fails sends
    RemoveSubgraph at once and keeps polling: its next successful poll sends
    AddSubgraph. *)
Lemma new_url_watcher_first_failure_keeps_polling :
  new_from_url ("users", "http://u/") 1 5
    = Ok (mkWatcher (Introspect RunnerUnknown 1) ("users", "http://u/") 5 0) /\
  snd (fst (watch_loop messenger_ok (mkWatcher (Introspect RunnerUnknown 1) ("users", "http://u/") 5 0)
              None [Err "connection refused"; Ok ("type Query{ me: ID }", RunnerSubgraph)]))
  = [RetriesExhausted "users"; Sent (RemoveSubgraph "users");
     Sent (AddSubgraph (mkSubgraphDefinition "users" "http://u/" "type Query{ me: ID }"))].
Proof. split; reflexivity. Qed.

(** ** Registry keys *)

Ltac destruct_goal_matches :=
  repeat match goal with |- context [match ?x with _ => _ end] => destruct x end.

Ltac destruct_goal_matches_eqn :=
  repeat match goal with
         |- context [match ?x with _ => _ end] => let E := fresh "E" in destruct x eqn:E
         end.

Lemma lookup_some_in (k : SubgraphKey) (m : Registry) v :
  lookup k m = Some v -> In k (map fst m).
Proof.
  induction m as [|[k' v'] m IH]; simpl; [discriminate|].
  destruct (key_eqb k k') eqn:E; intros H.
  - left; symmetry; apply key_eqb_eq; exact E.
  - right; exact (IH H).
Qed.

Lemma replace_keys (k : SubgraphKey) v (m : Registry) : map fst (replace k v m) = map fst m.
Proof.
  induction m as [|[k' v'] m IH]; simpl; [reflexivity|].
  destruct (key_eqb k k'); simpl; [reflexivity | rewrite IH; reflexivity].
Qed.

Lemma find_by_name_none_lookup (n : SubgraphName) (url : string) (m : Registry) :
  find_by_name n m = None -> lookup (n, url) m = None.
Proof.
  induction m as [|[[n' u'] v'] m IH]; simpl; [reflexivity|].
  destruct (String.eqb n' n) eqn:E; [discriminate|].
  intros H; unfold key_eqb; simpl.
  rewrite String.eqb_sym, E; simpl; exact (IH H).
Qed.

Lemma find_by_name_insert_vacant (n : SubgraphName) (url : string) v (m : Registry) :
  find_by_name n m = None -> find_by_name n (insert_vacant (n, url) v m) = Some (n, url).
Proof.
  unfold insert_vacant; induction m as [|[[n' u'] v'] m IH]; simpl.
  - rewrite String.eqb_refl; reflexivity.
  - destruct (String.eqb n' n); [discriminate | exact IH].
Qed.

Lemma remove_key_insert_vacant (k : SubgraphKey) v (m : Registry) :
  lookup k m = None -> remove_key k (insert_vacant k v m) = m.
Proof.
  unfold insert_vacant; induction m as [|[k' v'] m IH]; simpl.
  - rewrite key_eqb_refl; reflexivity.
  - destruct (key_eqb k k'); [discriminate|]; intros H; rewrite (IH H); reflexivity.
Qed.

(** ** Leader dispatch lemmas *)

Section DispatchFacts.

Context {ComposeRunner RouterRunner : Type}.
Variable compose_run : ComposeRunner -> SupergraphConfig -> ComposeRunner * CompositionResult.
Variable router_spawn : RouterRunner -> RouterRunner * result unit string.
Variable router_kill : RouterRunner -> RouterRunner * result unit string.
Variable PKG_VERSION : string.

Abbreviation recompose := (compose compose_run router_spawn router_kill).
Abbreviation add := (add_subgraph compose_run router_spawn router_kill).
Abbreviation update := (update_subgraph compose_run router_spawn router_kill).
Abbreviation remove := (remove_subgraph compose_run router_spawn router_kill).
Abbreviation handle := (handle_follower_message_kind compose_run router_spawn router_kill PKG_VERSION).
Abbreviation receive := (receive_all_subgraph_updates compose_run router_spawn router_kill PKG_VERSION).

Lemma add_subgraph_subgraphs (s : LeaderSession) name url sdl :
  subgraphs (fst (add s ((name, url), sdl))) =
    match lookup (name, url) (subgraphs s) with
    | None => insert_vacant (name, url) sdl (subgraphs s)
    | Some _ => subgraphs s
    end.
Proof.
  unfold add_subgraph; simpl.
  destruct (lookup (name, url) (subgraphs s)); [reflexivity|].
  pose proof (compose_subgraphs compose_run router_spawn router_kill
                (with_subgraphs s (insert_vacant (name, url) sdl (subgraphs s)))) as Hc.
  destruct (compose _ _ _ _) as [s2 [[sch|]|e]]; simpl in *;
    try destruct (negb _); exact Hc.
Qed.

Lemma update_subgraph_subgraphs (s : LeaderSession) name url sdl :
  subgraphs (fst (update s ((name, url), sdl))) =
    match lookup (name, url) (subgraphs s) with
    | None => insert_vacant (name, url) sdl (subgraphs s)
    | Some prev => if String.eqb prev sdl then subgraphs s
                   else replace (name, url) sdl (subgraphs s)
    end.
Proof.
  pose proof (add_subgraph_subgraphs s name url sdl) as Ha.
  unfold update_subgraph; cbv beta iota.
  destruct (lookup (name, url) (subgraphs s)) as [prev|] eqn:Hl; [|exact Ha].
  destruct (String.eqb prev sdl); simpl; [reflexivity|].
  pose proof (compose_subgraphs compose_run router_spawn router_kill
                (with_subgraphs s (replace (name, url) sdl (subgraphs s)))) as Hc.
  destruct (compose _ _ _ _) as [s2 [[sch|]|e]]; simpl in *; exact Hc.
Qed.

Lemma remove_subgraph_subgraphs (s : LeaderSession) n :
  subgraphs (fst (remove s n)) =
    match find_by_name n (subgraphs s) with
    | Some k => remove_key k (subgraphs s)
    | None => subgraphs s
    end.
Proof.
  unfold remove_subgraph.
  destruct (find_by_name n (subgraphs s)) as [[name url]|]; [|reflexivity].
  pose proof (compose_subgraphs compose_run router_spawn router_kill
                (with_subgraphs s (remove_key (name, url) (subgraphs s)))) as Hc.
  destruct (compose _ _ _ _) as [s2 [[sch|]|e]]; simpl in *; exact Hc.
Qed.

Lemma handle_add (s : LeaderSession) e :
  handle s (Protocol.AddSubgraph e) = (fst (add s e), Replied (snd (add s e))).
Proof. simpl; destruct (add s e); reflexivity. Qed.

Lemma handle_update (s : LeaderSession) e :
  handle s (Protocol.UpdateSubgraph e) = (fst (update s e), Replied (snd (update s e))).
Proof. simpl; destruct (update s e); reflexivity. Qed.

Lemma handle_remove (s : LeaderSession) n :
  handle s (Protocol.RemoveSubgraph n) = (fst (remove s n), Replied (snd (remove s n))).
Proof. simpl; destruct (remove s n); reflexivity. Qed.

Lemma handle_replies (s : LeaderSession) k :
  k <> Protocol.Shutdown -> exists s' r, handle s k = (s', Replied r).
Proof.
  destruct k as [e|e|n| | | |v]; simpl; intros Hk; try congruence; eauto.
  - destruct (add s e); eauto.
  - destruct (update s e); eauto.
  - destruct (remove s n); eauto.
Qed.

Lemma receive_cons_replied (s : LeaderSession) m rest s1 r :
  handle s (Protocol.kind m) = (s1, Replied r) ->
  receive s (m :: rest) =
    let '(s2, replies, out, exit) := receive s1 rest in
    (s2, r :: replies,
     app (if Protocol.is_from_main_session m then [] else print r) out, exit).
Proof. intros H; cbn [receive_all_subgraph_updates]; rewrite H; reflexivity. Qed.

Lemma receive_cons_exited (s : LeaderSession) m rest s1 status :
  handle s (Protocol.kind m) = (s1, Exited status) ->
  receive s (m :: rest) = (s1, [], [], Some status).
Proof. intros H; cbn [receive_all_subgraph_updates]; rewrite H; reflexivity. Qed.

Lemma lookup_after_add (s : LeaderSession) e : exists v, lookup (fst e) (subgraphs (fst (add s e))) = Some v.
Proof.
  destruct e as [[n u] sdl]; simpl fst at 1; rewrite add_subgraph_subgraphs.
  destruct (lookup (n, u) (subgraphs s)) as [v|] eqn:Hl.
  - exists v; exact Hl.
  - exists sdl; apply lookup_insert_vacant; exact Hl.
Qed.

End DispatchFacts.

(** ** Leader dispatch properties *)

Section DispatchExtras.

Context {ComposeRunner RouterRunner : Type}.
Variable compose_run : ComposeRunner -> SupergraphConfig -> ComposeRunner * CompositionResult.
Variable router_spawn : RouterRunner -> RouterRunner * result unit string.
Variable router_kill : RouterRunner -> RouterRunner * result unit string.
Variable PKG_VERSION : string.

Abbreviation add := (add_subgraph compose_run router_spawn router_kill).
Abbreviation update := (update_subgraph compose_run router_spawn router_kill).
Abbreviation remove := (remove_subgraph compose_run router_spawn router_kill).
Abbreviation handle := (handle_follower_message_kind compose_run router_spawn router_kill PKG_VERSION).
Abbreviation receive := (receive_all_subgraph_updates compose_run router_spawn router_kill PKG_VERSION).

(** An AddSubgraph or UpdateSubgraph message for a key is followed, in the
    reply to a GetSubgraphs message right after it, by a list that holds
    that key: also when the key was refused as a duplicate and when
    composition failed, since a failed composition does not take the entry
    back out of the registry. *)
Theorem get_subgraphs_lists_sent_key (s : LeaderSession) main1 main2 e k :
  k = Protocol.AddSubgraph e \/ k = Protocol.UpdateSubgraph e ->
  exists r l,
    snd (fst (fst (receive s [Protocol.mkFollowerMessage main1 k;
                               Protocol.mkFollowerMessage main2 Protocol.GetSubgraphs])))
      = [r; LeaderSessionInfo l] /\ In (fst e) l.
Proof.
  intros Hk.
  assert (Hin : exists s1 r, handle s k = (s1, Replied r) /\ In (fst e) (get_subgraphs s1)).
  { destruct Hk as [->| ->].
    - exists (fst (add s e)), (snd (add s e)); split; [apply handle_add|].
      destruct (lookup_after_add compose_run router_spawn router_kill s e) as [v Hv].
      exact (lookup_some_in _ _ v Hv).
    - exists (fst (update s e)), (snd (update s e)); split; [apply handle_update|].
      destruct e as [[n u] sdl].
      exact (lookup_some_in _ _ sdl (update_subgraph_lookup compose_run router_spawn router_kill s n u sdl)). }
  destruct Hin as [s1 [r [Hh Hl]]].
  rewrite (receive_cons_replied compose_run router_spawn router_kill PKG_VERSION s
             (Protocol.mkFollowerMessage main1 k) _ s1 r Hh).
  rewrite (receive_cons_replied compose_run router_spawn router_kill PKG_VERSION s1
             (Protocol.mkFollowerMessage main2 Protocol.GetSubgraphs) [] s1
             (LeaderSessionInfo (get_subgraphs s1))) by reflexivity.
  exists r, (get_subgraphs s1); split; [reflexivity | exact Hl].
Qed.

(** The leader answers each message with exactly one reply, in order, up to
    the first Shutdown message.  That message gets no reply: the router is
    killed and the process exits with status 1, and no later message is
    handled. *)
Theorem receive_all_subgraph_updates_until_shutdown (s : LeaderSession) pre m post :
  forallb (fun m => negb (Protocol.is_shutdown m)) pre = true ->
  Protocol.kind m = Protocol.Shutdown ->
  let '(s1, replies, out, exit) := receive s pre in
  exit = None /\ List.length replies = List.length pre /\
  receive s (app pre (m :: post)) =
    (with_router_runner s1 (fst (router_kill (router_runner s1))), replies, out, Some 1).
Proof.
  intros Hpre Hm; revert s; induction pre as [|a pre IH]; intros s.
  - simpl app.
    rewrite (receive_cons_exited compose_run router_spawn router_kill PKG_VERSION s m post
               (with_router_runner s (fst (router_kill (router_runner s)))) 1)
      by (rewrite Hm; reflexivity).
    repeat split; reflexivity.
  - simpl in Hpre; apply andb_prop in Hpre as [Ha Hpre].
    assert (Hk : Protocol.kind a <> Protocol.Shutdown)
      by (unfold Protocol.is_shutdown in Ha; intros E; rewrite E in Ha; discriminate).
    destruct (handle_replies compose_run router_spawn router_kill PKG_VERSION s _ Hk)
      as [s' [r Hh]].
    simpl app; rewrite !(receive_cons_replied _ _ _ _ _ _ _ _ _ Hh).
    specialize (IH Hpre s').
    destruct (receive s' pre) as [[[s1 rs] out] ex].
    destruct IH as [Hex [Hlen Heq]]; rewrite Heq.
    repeat split; [exact Hex | simpl; rewrite Hlen; reflexivity].
Qed.

(** Adding a subgraph under a name the registry does not hold and then
    removing that name gives back the registry as it was, whatever the
    composer and the router answer in between. *)
Theorem add_then_remove_restores_registry (s : LeaderSession) name url sdl :
  find_by_name name (subgraphs s) = None ->
  subgraphs (fst (remove (fst (add s ((name, url), sdl))) name)) = subgraphs s.
Proof.
  intros Hf.
  assert (Hl : lookup (name, url) (subgraphs s) = None)
    by (apply find_by_name_none_lookup; exact Hf).
  rewrite remove_subgraph_subgraphs, add_subgraph_subgraphs, Hl.
  rewrite (find_by_name_insert_vacant name url sdl _ Hf).
  apply remove_key_insert_vacant; exact Hl.
Qed.

(** Updating a subgraph the registry already holds (same name and URL)
    changes neither the set nor the order of the registry's keys. *)
Theorem update_present_keeps_keys (s : LeaderSession) name url sdl prev :
  lookup (name, url) (subgraphs s) = Some prev ->
  get_subgraphs (fst (update s ((name, url), sdl))) = get_subgraphs s.
Proof.
  intros Hl; unfold get_subgraphs; rewrite update_subgraph_subgraphs, Hl.
  destruct (String.eqb prev sdl); [reflexivity | apply replace_keys].
Qed.

End DispatchExtras.

(** ** Watcher properties *)

Section WatcherExtras.

Variable message_sender : FollowerMessageKind -> result unit string.

Abbreviation step := (update_subgraph_step message_sender).
Abbreviation loop := (watch_loop message_sender).
Abbreviation watch := (watch_subgraph_for_changes message_sender).

Ltac unfold_step :=
  unfold update_subgraph_step, get_subgraph_definition_and_maybe_new_runner.

Lemma step_preserves (w : SubgraphSchemaWatcher) last io :
  subgraph_retries (fst (fst (step w last io))) = subgraph_retries w /\
  subgraph_key (fst (fst (step w last io))) = subgraph_key w /\
  (subgraph_retry_countdown w <= subgraph_retries w ->
   subgraph_retry_countdown (fst (fst (step w last io))) <= subgraph_retries w).
Proof.
  destruct w as [k [name url] r c]; unfold_step; simpl.
  destruct_goal_matches; simpl; repeat split; intros; try reflexivity; try lia.
Qed.

Lemma step_sends_at_most_one (w : SubgraphSchemaWatcher) last io :
  List.length (filter is_sent (snd (fst (step w last io)))) <= 1.
Proof.
  destruct w as [k [name url] r c]; unfold_step; simpl.
  destruct_goal_matches; simpl; lia.
Qed.

Lemma step_no_notice_without_budget (w : SubgraphSchemaWatcher) last io :
  subgraph_retries w = 0 -> subgraph_retry_countdown w = 0 ->
  filter is_retry_notice (snd (fst (step w last io))) = [].
Proof.
  destruct w as [k [name url] r c]; simpl; intros -> ->; unfold_step.
  destruct_goal_matches_eqn; simpl in *; try discriminate; reflexivity.
Qed.

Lemma watch_loop_cons (w : SubgraphSchemaWatcher) last io ios :
  loop w last (io :: ios) =
    let '(w1, ev1, r1) := step w last io in
    match r1 with
    | Err e => (w1, ev1, Err e)
    | Ok last' => let '(w2, ev2, r2) := loop w1 last' ios in (w2, app ev1 ev2, r2)
    end.
Proof. reflexivity. Qed.

(** One read settles the dialect of an endpoint watched through an
    unknown-dialect runner: after a successful read the watcher introspects
    with the runner the read settled on, even when sending the result to the
    leader fails.  A failed read, or a watcher of any other kind, keeps its
    kind. *)
Theorem step_settles_runner (w : SubgraphSchemaWatcher) last io :
  schema_watcher_kind (fst (fst (step w last io))) =
    match schema_watcher_kind w, io with
    | Introspect RunnerUnknown pi, Ok (_, rk) => Introspect rk pi
    | k, _ => k
    end.
Proof.
  destruct w as [k [name url] r c]; unfold_step; simpl.
  destruct k as [[| |] pi|p|sdl]; destruct io as [[sdl' rk]|e]; simpl;
    destruct_goal_matches; reflexivity.
Qed.

(** Once a watcher's kind is settled (anything but an unknown-dialect
    runner), no run of the watch loop changes it. *)
Theorem watch_loop_keeps_settled_kind (w : SubgraphSchemaWatcher) last ios :
  (forall pi, schema_watcher_kind w <> Introspect RunnerUnknown pi) ->
  schema_watcher_kind (fst (fst (loop w last ios))) = schema_watcher_kind w.
Proof.
  revert w last; induction ios as [|io ios IH]; intros w last Hk; [reflexivity|].
  rewrite watch_loop_cons.
  pose proof (step_settles_runner w last io) as Hs.
  assert (Hs' : schema_watcher_kind (fst (fst (step w last io))) = schema_watcher_kind w).
  { rewrite Hs; destruct (schema_watcher_kind w) as [[| |] pi|p|sdl]; try reflexivity.
    exfalso; exact (Hk pi eq_refl). }
  destruct (step w last io) as [[w1 ev1] [l'|e]]; simpl in Hs'; [|exact Hs'].
  rewrite <- Hs' in Hk |- *.
  specialize (IH w1 l' Hk); destruct (loop w1 l' ios) as [[w2 ev2] r2]; exact IH.
Qed.

(** A successful read of the same SDL as the last one sends nothing, keeps
    that SDL as the last message, and refills the retry budget. *)
Theorem step_unchanged_sdl_sends_nothing (w : SubgraphSchemaWatcher) last io d k :
  get_subgraph_definition_and_maybe_new_runner w io = Ok (d, k) ->
  def_sdl d = last ->
  snd (fst (step w (Some last) io)) = [] /\
  snd (step w (Some last) io) = Ok (Some last) /\
  subgraph_retry_countdown (fst (fst (step w (Some last) io))) = subgraph_retries w.
Proof.
  intros Hg Hd; unfold update_subgraph_step; rewrite Hg, Hd, String.eqb_refl; simpl.
  destruct k; repeat split; reflexivity.
Qed.

(** Along any run of the watch loop the retry budget and the subgraph key
    never change, and the countdown stays within the budget (as it starts:
    every constructor sets it to 0). *)
Theorem watch_loop_countdown_within_budget (w : SubgraphSchemaWatcher) last ios :
  subgraph_retry_countdown w <= subgraph_retries w ->
  subgraph_retries (fst (fst (loop w last ios))) = subgraph_retries w /\
  subgraph_key (fst (fst (loop w last ios))) = subgraph_key w /\
  subgraph_retry_countdown (fst (fst (loop w last ios))) <= subgraph_retries w.
Proof.
  revert w last; induction ios as [|io ios IH]; intros w last Hc; [simpl; auto|].
  rewrite watch_loop_cons.
  destruct (step_preserves w last io) as [Hr [Hk Hc']].
  specialize (Hc' Hc).
  destruct (step w last io) as [[w1 ev1] [l'|e]]; simpl in *; [|auto].
  rewrite <- Hr in Hc'; specialize (IH w1 l' Hc').
  destruct (loop w1 l' ios) as [[w2 ev2] r2]; simpl in *.
  destruct IH as [H1 [H2 H3]]; rewrite H1, H2, <- Hr, <- Hk; auto.
Qed.

(** The watch loop sends at most one message to the leader per read. *)
Theorem watch_loop_sends_at_most_one_per_read (w : SubgraphSchemaWatcher) last ios :
  List.length (filter is_sent (snd (fst (loop w last ios)))) <= List.length ios.
Proof.
  revert w last; induction ios as [|io ios IH]; intros w last; [simpl; lia|].
  rewrite watch_loop_cons.
  pose proof (step_sends_at_most_one w last io) as H1.
  destruct (step w last io) as [[w1 ev1] [l'|e]]; simpl in *; [|lia].
  specialize (IH w1 l'); destruct (loop w1 l' ios) as [[w2 ev2] r2]; simpl in *.
  rewrite filter_app, length_app; lia.
Qed.

(** With a retry budget of 0 the watcher never warns about a retry nor
    announces restored connectivity: each failed read goes straight to
    "retries exhausted". *)
Theorem watch_loop_no_notice_without_budget (w : SubgraphSchemaWatcher) last ios :
  subgraph_retries w = 0 -> subgraph_retry_countdown w = 0 ->
  filter is_retry_notice (snd (fst (loop w last ios))) = [].
Proof.
  revert w last; induction ios as [|io ios IH]; intros w last Hr Hc; [reflexivity|].
  rewrite watch_loop_cons.
  pose proof (step_no_notice_without_budget w last io Hr Hc) as H1.
  destruct (step_preserves w last io) as [Hr' [_ Hc']].
  specialize (Hc' ltac:(lia)).
  destruct (step w last io) as [[w1 ev1] [l'|e]]; simpl in *; [|exact H1].
  specialize (IH w1 l' ltac:(lia) ltac:(lia)).
  destruct (loop w1 l' ios) as [[w2 ev2] r2]; simpl in *.
  rewrite filter_app, H1, IH; reflexivity.
Qed.

(** The watch loop returns at the first message the leader cannot be sent:
    reads after that one are never made. *)
Theorem watch_loop_stops_at_send_error (w : SubgraphSchemaWatcher) last ios more e :
  snd (loop w last ios) = Err e ->
  loop w last (app ios more) = loop w last ios.
Proof.
  revert w last; induction ios as [|io ios IH]; intros w last; [discriminate|].
  cbn [app]; rewrite !watch_loop_cons.
  destruct (step w last io) as [[w1 ev1] [l'|e']]; [|reflexivity].
  specialize (IH w1 l').
  destruct (loop w1 l' ios) as [[w2 ev2] r2]; simpl; intros H.
  rewrite (IH H); reflexivity.
Qed.

(** A subgraph taken from GraphOS is sent once, as AddSubgraph with the SDL
    fetched and the routing URL of the supergraph config if given, else the
    one GraphOS holds; the watcher then returns, whatever the file or
    endpoint events. *)
Theorem graph_ref_watcher_sends_once g routing_url yaml_name contents registry_url retries w ios :
  new_from_graph_ref g routing_url yaml_name (Ok (contents, registry_url)) retries = Ok w ->
  exists url,
    (routing_url = Some url \/ (routing_url = None /\ registry_url = Some url)) /\
    snd (fst (watch w ios)) = [Sent (AddSubgraph (mkSubgraphDefinition yaml_name url contents))] /\
    snd (watch w ios) =
      match message_sender (AddSubgraph (mkSubgraphDefinition yaml_name url contents)) with
      | Ok _ => Ok None
      | Err e => Err e
      end.
Proof.
  unfold new_from_graph_ref, new_from_sdl.
  destruct routing_url as [u|]; [|destruct registry_url as [u|]]; intros H; try discriminate;
    injection H as <-; exists u; (split; [auto|]);
    unfold watch_subgraph_for_changes, update_subgraph_step; simpl;
    destruct (message_sender _); split; reflexivity.
Qed.

End WatcherExtras.

(** ** Start-up properties *)

Section StartupExtras.

Context {ComposeRunner RouterRunner : Type}.
Variable compose_runner0 : ComposeRunner.
Variable router_runner0 : RouterRunner.
Variable maybe_install_router : RouterRunner -> RouterRunner * result unit string.
Variable maybe_install_supergraph :
  ComposeRunner -> FederationVersion -> ComposeRunner * result unit string.

Abbreviation new := (@LeaderSession_new ComposeRunner RouterRunner compose_runner0 router_runner0
                       maybe_install_router maybe_install_supergraph).

(** [LeaderSession::new] either stops before doing anything, or only sends
    the health check when a leader answers on the socket, or runs a prefix
    of the same fixed sequence: remove the stale socket file, probe the
    router address, install the router, install the supergraph plugin for
    the resolved federation version, start the router configuration.  No
    step past the probe runs unless no leader answered, the address was
    free and the federation version resolved. *)
Theorem LeaderSession_new_step_order (env : StartupEnv) :
  (fst (new env) = [] /\ exists e, create_socket_name env = Err e /\ snd (new env) = Err e) \/
  (fst (new env) = [SentHealthCheck] /\ leader_answers env = true /\
   forall s, snd (new env) <> Ok (Some s)) \/
  (exists n fv,
     fst (new env) = firstn (2 + n) [RemovedSocketFile; ProbedRouterAddress; InstallRouter;
                                     InstallSupergraph fv; StartRouterConfig] /\
     leader_answers env = false /\
     (0 < n -> router_address_free env = true /\
               snd (get_federation_version (config_fed_version env)
                      (override_dev_composition_version env)) = Ok fv)).
Proof.
  unfold LeaderSession_new.
  destruct (create_socket_name env) as [u|e]; [|left; split; [reflexivity | exists e; auto]].
  right; destruct (leader_answers env) eqn:Hl.
  - left; destruct (health_check_write env); repeat split; auto; intros s; discriminate.
  - right; destruct (router_address_free env) eqn:Ha; simpl.
    2: { exists 0, LatestFedTwo; repeat split; auto; lia. }
    destruct (get_federation_version _ _) as [logs [fv|e]] eqn:Hf.
    2: { exists 0, LatestFedTwo; repeat split; auto; lia. }
    exists (match snd (maybe_install_router router_runner0) with
            | Err _ => 1
            | Ok _ => match snd (maybe_install_supergraph compose_runner0 fv) with
                      | Err _ => 2 | Ok _ => 3 end
            end), fv.
    destruct (maybe_install_router router_runner0) as [rr [u1|e]]; [|repeat split; auto].
    destruct (maybe_install_supergraph compose_runner0 fv) as [cr [u'|e]]; [|repeat split; auto].
    destruct (router_config_start env); repeat split; auto.
Qed.

(** A new leader starts with an empty registry, the runners as the two
    installers left them, both installs having succeeded, and the federation
    version [get_federation_version] resolves, the supergraph plugin having
    been installed for exactly that version. *)
Theorem LeaderSession_new_success (env : StartupEnv) s :
  snd (new env) = Ok (Some s) ->
  subgraphs s = [] /\
  maybe_install_router router_runner0 = (router_runner s, Ok tt) /\
  maybe_install_supergraph compose_runner0 (federation_version s) = (compose_runner s, Ok tt) /\
  leader_answers env = false /\ router_address_free env = true /\
  snd (get_federation_version (config_fed_version env) (override_dev_composition_version env))
    = Ok (federation_version s) /\
  fst (new env) = [RemovedSocketFile; ProbedRouterAddress; InstallRouter;
                   InstallSupergraph (federation_version s); StartRouterConfig].
Proof.
  unfold LeaderSession_new.
  destruct (create_socket_name env); [|discriminate].
  destruct (leader_answers env); [destruct (health_check_write env); discriminate|].
  destruct (router_address_free env); [|discriminate]; simpl.
  destruct (get_federation_version _ _) as [logs [fv|e]]; [|discriminate].
  destruct (maybe_install_router router_runner0) as [rr [[]|e]] eqn:Hr; [|discriminate].
  destruct (maybe_install_supergraph compose_runner0 fv) as [cr [[]|e]] eqn:Hsup; [|discriminate].
  destruct (router_config_start env); [|discriminate].
  intros H; injection H as <-; simpl; repeat split; try reflexivity; assumption.
Qed.

End StartupExtras.

(** ** Publishing properties *)

Section PublishExtras.

Variable PersistedQueryManifest PublishResponse : Type.
Variable get_authenticated_client : string -> result unit string.
Variable raw_manifest : result string string.
Variable parse_manifest : string -> option PersistedQueryManifest.
Variable describe_pql : GraphRef -> result string string.
Variable publish : string -> string -> PersistedQueryManifest -> result PublishResponse string.

Abbreviation run := (Publish_run PersistedQueryManifest PublishResponse get_authenticated_client
                       raw_manifest parse_manifest describe_pql publish).

(** Operations are published only after the client is authenticated and
    the manifest is read and parses, and only to one of two targets: the
    list GraphOS links to the variant of the graph ref given alone, or the
    list given with --list-id together with --graph-id (and no graph ref). *)
Theorem Publish_run_publishes_resolved_list (p : Publish) gid lid :
  In (PublishOperations gid lid) (fst (run p)) ->
  get_authenticated_client (profile_name p) = Ok tt /\
  (exists raw m, raw_manifest = Ok raw /\ parse_manifest raw = Some m) /\
  ((exists gr, graph_ref p = Some gr /\ graph_id p = None /\ list_id p = None /\
               gid = graph_name gr /\ describe_pql gr = Ok lid) \/
   (graph_ref p = None /\ graph_id p = Some gid /\ list_id p = Some lid)).
Proof.
  unfold Publish_run.
  destruct (get_authenticated_client (profile_name p)) as [[]|e]; [|intros []].
  destruct raw_manifest as [raw|e]; [|intros []].
  destruct (parse_manifest raw) as [m|] eqn:Hm; [|intros []].
  destruct (graph_ref p) as [gr|], (graph_id p) as [g|], (list_id p) as [l|]; simpl;
    try (intros []; fail).
  - destruct (describe_pql gr) as [id|e] eqn:Hd; simpl; [|intros [H|[]]; discriminate].
    intros [H|[H|[]]]; [discriminate|injection H as <- <-].
    repeat split; [eauto | left; exists gr; repeat split; exact Hd].
  - intros [H|[]]; injection H as <- <-; repeat split; [eauto | right; repeat split].
Qed.

(** A run without a graph ref that lacks --graph-id or --list-id makes no
    call to GraphOS and fails. *)
Theorem Publish_run_rejects_incomplete_target (p : Publish) :
  graph_ref p = None -> graph_id p = None \/ list_id p = None ->
  fst (run p) = [] /\ exists e, snd (run p) = PublishErr e.
Proof.
  intros Hr Hi; unfold Publish_run.
  destruct (get_authenticated_client (profile_name p)) as [[]|e];
    [|split; [reflexivity | eexists; reflexivity]].
  destruct raw_manifest as [raw|e]; [|split; [reflexivity | eexists; reflexivity]].
  destruct (parse_manifest raw) as [m|]; [|split; [reflexivity | eexists; reflexivity]].
  rewrite Hr; destruct Hi as [Hi|Hi]; rewrite Hi;
    [destruct (list_id p) | destruct (graph_id p)]; simpl;
    (split; [reflexivity | eexists; reflexivity]).
Qed.

(** The run reaches [unreachable!()] exactly when a graph ref comes with
    --graph-id or --list-id, once the client is authenticated and the
    manifest is read and parses; it has called GraphOS for nothing then. *)
Theorem Publish_run_unreachable (p : Publish) :
  snd (run p) = Unreachable <->
  get_authenticated_client (profile_name p) = Ok tt /\
  (exists raw m, raw_manifest = Ok raw /\ parse_manifest raw = Some m) /\
  graph_ref p <> None /\ (graph_id p <> None \/ list_id p <> None).
Proof.
  unfold Publish_run.
  destruct (get_authenticated_client (profile_name p)) as [[]|e];
    [|split; [discriminate | intros [H _]; discriminate]].
  destruct raw_manifest as [raw|e];
    [|split; [discriminate | intros [_ [[raw [m [H _]]] _]]; discriminate]].
  destruct (parse_manifest raw) as [m|] eqn:Hm;
    [|split; [discriminate | intros [_ [[raw' [m [H H']]] _]]; injection H as <-; congruence]].
  destruct (graph_ref p) as [gr|], (graph_id p) as [g|], (list_id p) as [l|]; simpl.
  all: try (destruct (describe_pql gr); simpl); try (destruct (publish _ _ _); simpl).
  all: split; [intros H | intros [_ [_ [Hg Hi]]]].
  all: try discriminate.
  all: try reflexivity.
  all: try (exfalso; apply Hg; reflexivity).
  all: try (exfalso; destruct Hi as [Hi|Hi]; apply Hi; reflexivity).
  all: split; [reflexivity | split; [eauto | split; [discriminate | ]]].
  all: (left; discriminate) || (right; discriminate).
Qed.

End PublishExtras.

(** ** Examples of the dispatch, watcher, start-up and publishing properties *)

Lemma get_subgraphs_lists_sent_key_witness :
  exists r l,
    snd (fst (fst (receive_all_subgraph_updates (composer_returning (Err "composition failed"))
                     router_spawn_log router_kill_log "0.23.0" session0
                     [attached_add_users; main_get_subgraphs])))
      = [r; LeaderSessionInfo l] /\ In (fst users_entry) l.
Proof.
  apply (get_subgraphs_lists_sent_key (composer_returning (Err "composition failed"))
           router_spawn_log router_kill_log "0.23.0" session0 false true users_entry
           (Protocol.AddSubgraph users_entry)).
  left; reflexivity.
Defined.

Lemma receive_all_subgraph_updates_until_shutdown_witness :
  let '(s1, replies, out, exit) :=
    receive_all_subgraph_updates composer_ok router_spawn_log router_kill_log "0.23.0" session0
      [attached_add_users; attached_health_check] in
  exit = None /\ List.length replies = List.length [attached_add_users; attached_health_check] /\
  receive_all_subgraph_updates composer_ok router_spawn_log router_kill_log "0.23.0" session0
    (app [attached_add_users; attached_health_check] (main_shutdown :: [main_get_subgraphs])) =
    (with_router_runner s1 (fst (router_kill_log (router_runner s1))), replies, out, Some 1).
Proof.
  apply (receive_all_subgraph_updates_until_shutdown composer_ok router_spawn_log router_kill_log
           "0.23.0" session0 [attached_add_users; attached_health_check] main_shutdown
           [main_get_subgraphs]); reflexivity.
Defined.

Lemma add_then_remove_restores_registry_witness :
  subgraphs (fst (remove_subgraph composer_ok router_spawn_log router_kill_log
                    (fst (add_subgraph composer_ok router_spawn_log router_kill_log session_users
                            (("posts", "http://p/"), "type Query{ posts: [ID] }")))
                    "posts"))
  = subgraphs session_users.
Proof.
  apply (add_then_remove_restores_registry composer_ok router_spawn_log router_kill_log
           session_users "posts" "http://p/" "type Query{ posts: [ID] }"); reflexivity.
Defined.

Lemma update_present_keeps_keys_witness :
  get_subgraphs (fst (update_subgraph composer_ok router_spawn_log router_kill_log session_users
                        (("users", "http://u/"), "type Query{ me: ID, name: String }")))
  = get_subgraphs session_users.
Proof.
  apply (update_present_keeps_keys composer_ok router_spawn_log router_kill_log session_users
           "users" "http://u/" "type Query{ me: ID, name: String }" "type Query{ me: ID }");
    reflexivity.
Defined.

Lemma watch_loop_keeps_settled_kind_witness :
  schema_watcher_kind (fst (fst (watch_loop messenger_ok flaky_watcher None
                                   [Ok ("type Query{ a: ID }", RunnerSubgraph); Err "timeout"])))
  = schema_watcher_kind flaky_watcher.
Proof.
  apply (watch_loop_keeps_settled_kind messenger_ok flaky_watcher None
           [Ok ("type Query{ a: ID }", RunnerSubgraph); Err "timeout"]).
  intros pi; simpl; discriminate.
Defined.

Lemma step_unchanged_sdl_sends_nothing_witness :
  snd (fst (update_subgraph_step messenger_ok flaky_watcher (Some "type Query{ a: ID }")
              (Ok ("type Query{ a: ID }", RunnerGraph)))) = [] /\
  snd (update_subgraph_step messenger_ok flaky_watcher (Some "type Query{ a: ID }")
         (Ok ("type Query{ a: ID }", RunnerGraph))) = Ok (Some "type Query{ a: ID }") /\
  subgraph_retry_countdown (fst (fst (update_subgraph_step messenger_ok flaky_watcher
                                        (Some "type Query{ a: ID }")
                                        (Ok ("type Query{ a: ID }", RunnerGraph)))))
  = subgraph_retries flaky_watcher.
Proof.
  apply (step_unchanged_sdl_sends_nothing messenger_ok flaky_watcher "type Query{ a: ID }"
           (Ok ("type Query{ a: ID }", RunnerGraph))
           (mkSubgraphDefinition "flaky" "http://flaky/" "type Query{ a: ID }") None);
    reflexivity.
Defined.

Lemma watch_loop_countdown_within_budget_witness :
  subgraph_retries (fst (fst (watch_loop messenger_ok flaky_watcher None
                                [Err "timeout"; Ok ("type Query{ a: ID }", RunnerGraph)])))
    = subgraph_retries flaky_watcher /\
  subgraph_key (fst (fst (watch_loop messenger_ok flaky_watcher None
                            [Err "timeout"; Ok ("type Query{ a: ID }", RunnerGraph)])))
    = subgraph_key flaky_watcher /\
  subgraph_retry_countdown (fst (fst (watch_loop messenger_ok flaky_watcher None
                                        [Err "timeout"; Ok ("type Query{ a: ID }", RunnerGraph)])))
    <= subgraph_retries flaky_watcher.
Proof.
  apply (watch_loop_countdown_within_budget messenger_ok flaky_watcher None
           [Err "timeout"; Ok ("type Query{ a: ID }", RunnerGraph)]).
  simpl; lia.
Defined.

Lemma watch_loop_no_notice_without_budget_witness :
  filter is_retry_notice
    (snd (fst (watch_loop messenger_ok (mkWatcher (File "users.graphql") ("users", "http://u/") 0 0)
                 None [Err "no such file"; Ok ("type Query{ me: ID }", RunnerUnknown)])))
  = [].
Proof.
  apply (watch_loop_no_notice_without_budget messenger_ok
           (mkWatcher (File "users.graphql") ("users", "http://u/") 0 0) None
           [Err "no such file"; Ok ("type Query{ me: ID }", RunnerUnknown)]); reflexivity.
Defined.

Lemma watch_loop_stops_at_send_error_witness :
  watch_loop messenger_closed flaky_watcher None
    (app [Ok ("type Query{ a: ID }", RunnerGraph)] [Err "timeout"])
  = watch_loop messenger_closed flaky_watcher None [Ok ("type Query{ a: ID }", RunnerGraph)].
Proof.
  apply (watch_loop_stops_at_send_error messenger_closed flaky_watcher None
           [Ok ("type Query{ a: ID }", RunnerGraph)] [Err "timeout"]
           "the main `rover dev` process is gone"); reflexivity.
Defined.

Lemma graph_ref_watcher_sends_once_witness :
  exists url,
    (None = Some url \/ (None = @None string /\ Some "http://u/" = Some url)) /\
    snd (fst (watch_subgraph_for_changes messenger_ok
                (mkWatcher (Once "type Query{ me: ID }") ("users", "http://u/") 3 0) []))
      = [Sent (AddSubgraph (mkSubgraphDefinition "users" url "type Query{ me: ID }"))] /\
    snd (watch_subgraph_for_changes messenger_ok
           (mkWatcher (Once "type Query{ me: ID }") ("users", "http://u/") 3 0) []) =
      match messenger_ok (AddSubgraph (mkSubgraphDefinition "users" url "type Query{ me: ID }")) with
      | Ok _ => Ok None
      | Err e => Err e
      end.
Proof.
  apply (graph_ref_watcher_sends_once messenger_ok "users" None "users" "type Query{ me: ID }"
           (Some "http://u/") 3 (mkWatcher (Once "type Query{ me: ID }") ("users", "http://u/") 3 0)
           []); reflexivity.
Defined.

Lemma LeaderSession_new_success_witness :
  let s := mkLeaderSession [] 1 ["install router"] LatestFedTwo in
  subgraphs s = [] /\
  install_router_log [] = (router_runner s, Ok tt) /\
  install_supergraph_count 0 (federation_version s) = (compose_runner s, Ok tt) /\
  leader_answers machine_free = false /\ router_address_free machine_free = true /\
  snd (get_federation_version (config_fed_version machine_free)
         (override_dev_composition_version machine_free)) = Ok (federation_version s) /\
  fst (LeaderSession_new 0 [] install_router_log install_supergraph_count machine_free) =
    [RemovedSocketFile; ProbedRouterAddress; InstallRouter;
     InstallSupergraph (federation_version s); StartRouterConfig].
Proof.
  apply (LeaderSession_new_success 0 [] install_router_log install_supergraph_count machine_free
           (mkLeaderSession [] 1 ["install router"] LatestFedTwo)); reflexivity.
Defined.

Lemma Publish_run_publishes_resolved_list_witness :
  let p := mkPublish (Some (mkGraphRef "shop" "current")) None None "default" in
  pq_auth (profile_name p) = Ok tt /\
  (exists raw m, pq_raw = Ok raw /\ pq_parse raw = Some m) /\
  ((exists gr, graph_ref p = Some gr /\ graph_id p = None /\ list_id p = None /\
               "shop" = graph_name gr /\ pq_describe gr = Ok "list-of-shop") \/
   (graph_ref p = None /\ graph_id p = Some "shop" /\ list_id p = Some "list-of-shop")).
Proof.
  apply (Publish_run_publishes_resolved_list string string pq_auth pq_raw pq_parse pq_describe
           pq_publish (mkPublish (Some (mkGraphRef "shop" "current")) None None "default")
           "shop" "list-of-shop").
  simpl; right; left; reflexivity.
Defined.

Lemma Publish_run_rejects_incomplete_target_witness :
  let p := mkPublish None (Some "shop") None "default" in
  fst (Publish_run string string pq_auth pq_raw pq_parse pq_describe pq_publish p) = [] /\
  exists e, snd (Publish_run string string pq_auth pq_raw pq_parse pq_describe pq_publish p)
              = PublishErr e.
Proof.
  apply (Publish_run_rejects_incomplete_target string string pq_auth pq_raw pq_parse pq_describe
           pq_publish (mkPublish None (Some "shop") None "default")); [reflexivity | right; reflexivity].
Defined.
